(** * The chat and conversation endpoints of the legal assistant backend

    A shallow embedding of [api/chat] (the answer endpoint: rate limiting,
    anonymous free quota, answer cache, completion provider, conversation
    recording) and of [api/conversations] (session listing, deletion,
    renaming and the saving of anonymous messages), with the properties of
    the answer-resolution and quota-coordination pipeline proved over it.

    The handlers are asynchronous JavaScript functions that talk to a
    database, a rate limiter and an HTTP provider.  They are embedded as
    programs of a state-and-exception monad: every call that leaves the
    handler is answered by an [Externals] record acting on an abstract world
    and is written, with its result, to a trace. *)

From Stdlib Require Import ZArith String Ascii List Lia DecimalString.
From stdpp Require Import base gmap list strings.

Local Open Scope string_scope.
Local Open Scope Z_scope.
Set Warnings "-register-all".

(** ** JavaScript strings *)

(** A JavaScript string is a sequence of UTF-16 code units; [substring],
    [length] and [trim] count code units.  A code unit is a natural number
    (below 65536 for every string that JavaScript can hold). *)
Abbreviation jsstring := (list N).

(** Source literals are written in this file in UTF-8; [utf8_decode] turns
    the bytes of a literal into code units (one, two and three byte
    sequences, which is the whole Basic Multilingual Plane). *)
Fixpoint utf8_decode (bs : list N) : jsstring :=
  match bs with
  | [] => []
  | b :: r =>
      if (b <? 128)%N then b :: utf8_decode r
      else if (b <? 224)%N then
        match r with
        | b2 :: r' => ((b - 192) * 64 + (b2 - 128))%N :: utf8_decode r'
        | [] => [b]
        end
      else
        match r with
        | b2 :: b3 :: r' =>
            ((b - 224) * 4096 + (b2 - 128) * 64 + (b3 - 128))%N :: utf8_decode r'
        | _ => b :: r
        end
  end.

Definition lit (s : string) : jsstring :=
  utf8_decode (List.map N_of_ascii (list_ascii_of_string s)).

(** [WhiteSpace] and [LineTerminator] of ECMAScript, the code units that
    [String.prototype.trim] and [parseInt] strip. *)
Definition is_whitespace (c : N) : bool :=
  match c with
  | 9 | 10 | 11 | 12 | 13 | 32 | 160 | 5760
  | 8232 | 8233 | 8239 | 8287 | 12288 | 65279 => true
  | _ => (8192 <=? c) && (c <=? 8202)
  end%N.

Fixpoint trim_start (s : jsstring) : jsstring :=
  match s with
  | c :: s' => if is_whitespace c then trim_start s' else s
  | [] => []
  end.

Definition trim_end (s : jsstring) : jsstring := rev (trim_start (rev s)).

(** [s.trim()] *)
Definition trim (s : jsstring) : jsstring := trim_end (trim_start s).

(** [s.substring(0, n)] for a non-negative [n]. *)
Definition substring0 (n : nat) (s : jsstring) : jsstring := take n s.

(** [s === ''] *)
Definition is_empty (s : jsstring) : bool :=
  match s with [] => true | _ => false end.

(** ** JavaScript numbers *)

(** The numbers the handlers compute with are counters, identifiers and
    durations: integers, or [NaN] when [parseInt] finds no digits.  [Num z]
    is the number whose value is the integer [z]; number arithmetic on such
    values is exact as long as operands and results stay in the safe-integer
    range, and the statements below that rest on [+] and [-] are made for
    counters of that range (see [MIN_SAFE_INTEGER]). *)
Inductive jsnum : Type :=
| NaN
| Num (z : Z).

(** [Number.MIN_SAFE_INTEGER] *)
Definition MIN_SAFE_INTEGER : Z := - (2 ^ 53 - 1).

(** [a + b] on numbers *)
Definition js_add (a b : jsnum) : jsnum :=
  match a, b with
  | Num x, Num y => Num (x + y)
  | _, _ => NaN
  end.

(** [a - b] *)
Definition js_sub (a b : jsnum) : jsnum :=
  match a, b with
  | Num x, Num y => Num (x - y)
  | _, _ => NaN
  end.

(** [Math.max(a, b)] *)
Definition js_max (a b : jsnum) : jsnum :=
  match a, b with
  | Num x, Num y => Num (Z.max x y)
  | _, _ => NaN
  end.

(** [a >= b]: false as soon as one side is [NaN]. *)
Definition js_ge (a b : jsnum) : bool :=
  match a, b with
  | Num x, Num y => y <=? x
  | _, _ => false
  end.

(** The value of a digit in radix 10 or 16. *)
Definition digit_value (c : N) : option Z :=
  if (48 <=? c)%N && (c <=? 57)%N then Some (Z.of_N c - 48)
  else if (97 <=? c)%N && (c <=? 102)%N then Some (Z.of_N c - 87)
  else if (65 <=? c)%N && (c <=? 70)%N then Some (Z.of_N c - 55)
  else None.

(** The longest prefix of digits of the radix, as a number; [acc] is [None]
    until a first digit is read. *)
Fixpoint parse_digits (radix : Z) (s : jsstring) (acc : option Z) : option Z :=
  match s with
  | c :: s' =>
      match digit_value c with
      | Some d =>
          if d <? radix
          then parse_digits radix s' (Some (radix * default 0 acc + d))
          else acc
      | None => acc
      end
  | [] => acc
  end.

(** [parseInt(s)] with no radix argument: leading white space is skipped, a
    sign is read, a [0x] or [0X] prefix selects radix 16, and the digits
    that follow are read up to the first character that is not one; no
    digit gives [NaN].  The digits are read exactly, where JavaScript rounds
    to the nearest double beyond the safe-integer range; the handlers only
    compare the result with 2, add 1 to it or pass it on. *)
Definition parseInt (s : jsstring) : jsnum :=
  let s1 := trim_start s in
  let '(neg, s2) :=
    match s1 with
    | 45%N :: r => (true, r)
    | 43%N :: r => (false, r)
    | _ => (false, s1)
    end in
  let '(radix, s3) :=
    match s2 with
    | 48%N :: 120%N :: r | 48%N :: 88%N :: r => (16, r)
    | _ => (10, s2)
    end in
  match parse_digits radix s3 None with
  | None => NaN
  | Some n => Num (if neg then - n else n)
  end.

(** [n.toString()] *)
Definition js_toString (n : jsnum) : jsstring :=
  match n with
  | NaN => lit "NaN"
  | Num z => lit (NilZero.string_of_int (Z.to_int z))
  end.

(** ** JavaScript values *)

(** The values that travel through the handlers: request bodies (parsed
    JSON), the provider's reply, response bodies. An object is the list of
    its own properties. *)
Inductive jsval : Type :=
| VUndefined
| VNull
| VBool (b : bool)
| VNum (n : jsnum)
| VStr (s : jsstring)
| VArr (items : list jsval)
| VObj (fields : list (string * jsval)).

(** Truthiness: what [if (v)], [!v] and [v || w] test. *)
Definition truthy (v : jsval) : bool :=
  match v with
  | VUndefined | VNull => false
  | VBool b => b
  | VNum NaN => false
  | VNum (Num z) => negb (z =? 0)
  | VStr s => negb (is_empty s)
  | VArr _ | VObj _ => true
  end.

(** [a || b] *)
Definition js_or (a b : jsval) : jsval := if truthy a then a else b.

(** A thrown [Error], by its [message]. *)
Inductive outcome (A : Type) : Type :=
| Ok (a : A)
| Throw (message : jsstring).
Arguments Ok {A} a.
Arguments Throw {A} message.

Definition TypeError : jsstring := lit "TypeError".

Fixpoint assoc (k : string) (fields : list (string * jsval)) : jsval :=
  match fields with
  | [] => VUndefined
  | (k', v) :: rest => if String.eqb k k' then v else assoc k rest
  end.

(** [v.k] for the property names the handlers read ([message], [sessionId],
    [role], [content], [choices], [usage], ...), none of which is a built-in
    property of a string, an array, a number or a boolean: reading one off
    [undefined] or [null] throws, off another primitive or an array gives
    [undefined]. *)
Definition get_prop (v : jsval) (k : string) : outcome jsval :=
  match v with
  | VUndefined | VNull => Throw TypeError
  | VObj fields => Ok (assoc k fields)
  | _ => Ok VUndefined
  end.

(** [v?.k] *)
Definition opt_prop (v : jsval) (k : string) : jsval :=
  match v with
  | VObj fields => assoc k fields
  | _ => VUndefined
  end.

(** [v[0]] *)
Definition index0 (v : jsval) : outcome jsval :=
  match v with
  | VUndefined | VNull => Throw TypeError
  | VArr (x :: _) => Ok x
  | VArr [] => Ok VUndefined
  | VObj fields => Ok (assoc "0" fields)
  | VStr (c :: _) => Ok (VStr [c])
  | _ => Ok VUndefined
  end.

Definition str (s : string) : jsval := VStr (lit s).
Definition num (z : Z) : jsval := VNum (Num z).

(** ** What the handlers exchange with the outside *)

(** The two limiters of lib/ratelimit.js. *)
Inductive limiter : Type :=
| chatRateLimiter
| chatRateLimiterRegistered.

(** The decision [checkRateLimit] resolves to; the handler reads [success]
    and hands the rest to the helpers that write the usage headers. *)
Record RateLimit : Type := {
  rl_success : bool;
  rl_limit : Z;
  rl_remaining : Z;
  rl_reset : Z
}.

(** A row of the users table; the handlers read its [id]. *)
Record User : Type := { user_id : Z }.

(** What [getCachedAnswer] resolves to on a hit. *)
Record CachedAnswer : Type := {
  answer : jsval;
  hitCount : Z
}.

(** The [Response] of [fetch]; [json] is what [await response.json()] gives. *)
Record FetchResponse : Type := {
  ok : bool;
  status : Z;
  statusText : jsstring;
  json : outcome jsval
}.

(** The metadata object given to [addConversationMessage]. *)
Record Metadata : Type := {
  tokensUsed : jsval;
  responseTimeMs : jsval;
  wasCached : bool
}.

(** [req]: method, parsed body, the cookies as [parseCookies] returns them,
    the network address its headers carry, and the environment variable the
    chat handler reads. *)
Record Request : Type := {
  req_method : string;
  req_body : jsval;
  req_cookies : gmap string jsstring;
  req_ip : jsstring;
  OPENAI_API_KEY : option jsstring
}.

Inductive loglevel : Type := LogDebug | LogInfo | LogError | LogSecurity.

(** One entry per call that leaves a handler, with the result it got. *)
Inductive event : Type :=
| EvSetCorsHeaders
| EvHandleCorsPreflight (handled : bool)
| EvFindUserByEmail (email : jsstring) (r : outcome (option User))
| EvCheckRateLimit (l : limiter) (identifier : jsstring) (r : outcome RateLimit)
| EvSendRateLimitError (rl : RateLimit)
| EvAddRateLimitHeaders (rl : RateLimit)
| EvGetCachedAnswer (question : jsstring) (r : outcome (option CachedAnswer))
| EvFetch (apiKey message : jsstring) (r : outcome FetchResponse)
| EvSaveCachedAnswer (question : jsstring) (ans : jsval) (r : outcome unit)
| EvCreateConversationSession (userId : Z) (seed : jsstring) (r : outcome Z)
| EvAddConversationMessage (sessionId role content : jsval) (meta : Metadata)
    (r : outcome unit)
| EvNow (t : Z)
| EvLog (level : loglevel) (label : string).

(** Response headers, by what they carry. *)
Inductive header : Type :=
| CorsHeaders
| UsageHeaders (limit remaining reset : Z)
| SetCookie (name : string) (value : jsstring) (maxAge : Z).

(** The reply written to [res]. *)
Inductive reply : Type :=
| Json (code : Z) (body : jsval)
| Preflight
| RateLimited (rl : RateLimit).

(** lib/utils.js, lib/db.js, lib/ratelimit.js, [fetch] and [Date.now], as
    functions of a world [W] that the handlers never look into. *)
Record Externals (W : Type) : Type := {
  handleCorsPreflight : Request -> W -> bool * W;
  findUserByEmail : jsstring -> W -> outcome (option User) * W;
  getClientIp : Request -> jsstring;
  checkRateLimit : limiter -> jsstring -> W -> outcome RateLimit * W;
  getCachedAnswer : jsstring -> W -> outcome (option CachedAnswer) * W;
  saveCachedAnswer : jsstring -> jsval -> W -> outcome unit * W;
  fetch : jsstring -> jsstring -> W -> outcome FetchResponse * W;
  createConversationSession : Z -> jsstring -> W -> outcome Z * W;
  addConversationMessage :
    jsval -> jsval -> jsval -> Metadata -> W -> outcome unit * W;
  now : W -> Z * W
}.
Arguments handleCorsPreflight {W}.
Arguments findUserByEmail {W}.
Arguments getClientIp {W}.
Arguments checkRateLimit {W}.
Arguments getCachedAnswer {W}.
Arguments saveCachedAnswer {W}.
Arguments fetch {W}.
Arguments createConversationSession {W}.
Arguments addConversationMessage {W}.
Arguments now {W}.

(** ** The monad of a handler run *)

Record state (W : Type) : Type := mkState {
  world : W;
  trace : list event;
  headers : list header;
  sent : option reply
}.
Arguments mkState {W}.
Arguments world {W}.
Arguments trace {W}.
Arguments headers {W}.
Arguments sent {W}.

Definition M (W A : Type) : Type := state W -> outcome A * state W.

Section Monad.
Context {W : Type}.

Definition ret {A} (a : A) : M W A := fun st => (Ok a, st).

Definition bind {A B} (m : M W A) (k : A -> M W B) : M W B :=
  fun st =>
    match m st with
    | (Ok a, st') => k a st'
    | (Throw e, st') => (Throw e, st')
    end.

Definition throw {A} (e : jsstring) : M W A := fun st => (Throw e, st).

(** [try { body } catch (e) { handler e }] *)
Definition try_catch {A} (body : M W A) (handler : jsstring -> M W A) : M W A :=
  fun st =>
    match body st with
    | (Ok a, st') => (Ok a, st')
    | (Throw e, st') => handler e st'
    end.

(** A pure step that may throw. *)
Definition lift {A} (r : outcome A) : M W A := fun st => (r, st).

Definition emit (ev : event) : M W unit :=
  fun st => (Ok tt, mkState (world st) (trace st ++ [ev]) (headers st) (sent st)).

(** [await f(...)]: the world answers and the answer is traced. *)
Definition call {A} (f : W -> outcome A * W) (ev : outcome A -> event) : M W A :=
  fun st =>
    let '(r, w) := f (world st) in
    (r, mkState w (trace st ++ [ev r]) (headers st) (sent st)).

(** [res.setHeader(...)] *)
Definition setHeader (h : header) : M W unit :=
  fun st => (Ok tt, mkState (world st) (trace st) (headers st ++ [h]) (sent st)).

Definition respond (r : reply) : M W unit :=
  fun st => (Ok tt, mkState (world st) (trace st) (headers st) (Some r)).

(** [return res.status(code).json(body)] *)
Definition send (code : Z) (body : jsval) : M W unit := respond (Json code body).

(** As [call], for a helper that does not throw. *)
Definition ask {A} (f : W -> A * W) (ev : A -> event) : M W A :=
  fun st =>
    let '(a, w) := f (world st) in
    (Ok a, mkState w (trace st ++ [ev a]) (headers st) (sent st)).

Definition log (level : loglevel) (label : string) : M W unit :=
  emit (EvLog level label).
End Monad.

Declare Scope handler_scope.
Delimit Scope handler_scope with handler.
Notation "'let*' x ':=' m 'in' k" := (bind m (fun x => k))
  (at level 10, x name, m at level 100, k at level 200) : handler_scope.
Notation "m ';;' k" := (bind m (fun _ => k))
  (at level 100, k at level 200, right associativity) : handler_scope.
Local Open Scope handler_scope.

(** ** Helpers of lib/ratelimit.js that write to the response *)

Section RateLimitHelpers.
Context {W : Type}.

(** Modelled from the spec: [addRateLimitHeaders] of lib/ratelimit.js, which
    is not among the sources.  "Every response, admitted or not, attaches
    usage headers encoding the limit, remaining budget, and reset time". *)
Definition addRateLimitHeaders (rl : RateLimit) : M W unit :=
  emit (EvAddRateLimitHeaders rl);;
  setHeader (UsageHeaders (rl_limit rl) (rl_remaining rl) (rl_reset rl)).

(** Modelled from the spec: [sendRateLimitError] of lib/ratelimit.js, which
    is not among the sources.  The denial attaches the usage headers as
    every response does and replies with "a denial payload carrying
    limit/remaining/reset, at a client-error status distinct from quota
    exhaustion", here the reply [RateLimited rl]. *)
Definition sendRateLimitError (rl : RateLimit) : M W unit :=
  emit (EvSendRateLimitError rl);;
  setHeader (UsageHeaders (rl_limit rl) (rl_remaining rl) (rl_reset rl));;
  respond (RateLimited rl).
End RateLimitHelpers.

(** ** api/chat

    The answer endpoint: the second handler of src/api/conversations.js,
    whose line numbers the comments below refer to. *)

Module Chat.
Section Handler.
Context {W : Type} (ext : Externals W).

(** [Date.now()] *)
Definition dateNow : M W Z := ask (now ext) EvNow.

Definition fallback_answer : jsval :=
  str "Désolé, je n'ai pas pu générer une réponse.".

Definition message_required_body : jsval :=
  VObj [("error", str "Message is required")].

Definition method_not_allowed_body : jsval :=
  VObj [("error", str "Method not allowed")].

Definition configuration_missing_body : jsval :=
  VObj [("error", str "Configuration manquante. Veuillez contacter l'administrateur.")].

Definition internal_error_body : jsval :=
  VObj [("error", str "Erreur interne du serveur")].

Definition needSignup_body (qUsed : jsnum) : jsval :=
  VObj [("success", VBool false);
        ("needSignup", VBool true);
        ("message", str "Vous avez utilisé vos 2 questions gratuites. Inscrivez-vous pour continuer.");
        ("qUsed", VNum qUsed);
        ("remaining", num 0)].

Definition provider_error_body : jsval :=
  VObj [("error", str "Erreur lors de la génération de la réponse. Veuillez réessayer.")].

Definition success_body (answer : jsval) (newQUsed : jsnum) (remaining : jsval)
    (fromCache : bool) (conversationSessionId : jsval) : jsval :=
  VObj [("success", VBool true);
        ("response", answer);
        ("qUsed", VNum newQUsed);
        ("remaining", remaining);
        ("cached", VBool fromCache);
        ("sessionId", conversationSessionId)].

(** Lines 313 to 345, for an identified owner.  The source assigns
    [conversationSessionId] inside the [try] block, so the identifier of a
    session that was created is kept when a later append throws; the
    result is the value of that variable after the block. *)
Definition record_conversation (currentUser : User) (message : jsstring)
    (sessionId answer : jsval) (fromCache : bool) (tokensUsed : jsval)
    (responseTimeMs : Z) : M W jsval :=
  let appends (conversationSessionId : jsval) : M W jsval :=
    try_catch
      (call (addConversationMessage ext conversationSessionId (str "user")
               (VStr message)
               {| tokensUsed := num 0; responseTimeMs := VNull; wasCached := false |})
            (EvAddConversationMessage conversationSessionId (str "user")
               (VStr message)
               {| tokensUsed := num 0; responseTimeMs := VNull; wasCached := false |});;
       call (addConversationMessage ext conversationSessionId (str "assistant")
               answer
               {| tokensUsed := tokensUsed; responseTimeMs := num responseTimeMs;
                  wasCached := fromCache |})
            (EvAddConversationMessage conversationSessionId (str "assistant")
               answer
               {| tokensUsed := tokensUsed; responseTimeMs := num responseTimeMs;
                  wasCached := fromCache |});;
       log LogInfo "Conversation sauvegardée:";;
       ret conversationSessionId)
      (fun _ => log LogError "Erreur sauvegarde conversation:";;
                ret conversationSessionId) in
  if negb (truthy sessionId) then
    try_catch
      (let* id := call (createConversationSession ext (user_id currentUser) message)
                       (EvCreateConversationSession (user_id currentUser) message) in
       log LogDebug "Nouvelle session créée:";;
       appends (num id))
      (fun _ => log LogError "Erreur sauvegarde conversation:";;
                ret sessionId)
  else appends sessionId.

(** Lines 305 to 366: recording, counter, cookie and the success reply. *)
Definition respond_answer (message : jsstring) (sessionId : jsval)
    (qUsed : jsnum) (registered : bool) (currentUser : option User)
    (startTime : Z) (answer : jsval) (fromCache : bool) (tokensUsed : jsval)
    : M W unit :=
  let* endTime := dateNow in
  let responseTimeMs := endTime - startTime in
  let* conversationSessionId :=
    match currentUser with
    | Some user =>
        record_conversation user message sessionId answer fromCache tokensUsed
          responseTimeMs
    | None => ret sessionId
    end in
  let newQUsed := if registered then qUsed else js_add qUsed (Num 1) in
  let remaining :=
    if registered then str "illimité"
    else VNum (js_max (Num 0) (js_sub (Num 2) newQUsed)) in
  (if negb registered
   then setHeader (SetCookie "q_used" (js_toString newQUsed) (24 * 60 * 60))
   else ret tt);;
  send 200 (success_body answer newQUsed remaining fromCache conversationSessionId).

(** Lines 264 to 303: the provider is called on a cache miss; [continue]
    is the rest of the handler, reached when the provider answered. *)
Definition ask_provider (apiKey message : jsstring)
    (continue : jsval -> jsval -> M W unit) : M W unit :=
  let* openaiResponse := call (fetch ext apiKey message) (EvFetch apiKey message) in
  if negb (ok openaiResponse) then
    log LogError "OpenAI API Error:";;
    send 500 provider_error_body
  else
    let* openaiData := lift (json openaiResponse) in
    let* choices := lift (get_prop openaiData "choices") in
    let* first := lift (index0 choices) in
    let answer :=
      js_or (opt_prop (opt_prop first "message") "content") fallback_answer in
    let* usage := lift (get_prop openaiData "usage") in
    let tokensUsed := js_or (opt_prop usage "total_tokens") (num 0) in
    call (saveCachedAnswer ext message answer) (EvSaveCachedAnswer message answer);;
    continue answer tokensUsed.

(** Lines 248 to 303: cache first, provider on a miss. *)
Definition resolve_answer (apiKey message : jsstring) (sessionId : jsval)
    (qUsed : jsnum) (registered : bool) (currentUser : option User) : M W unit :=
  let* startTime := dateNow in
  let* cachedResponse :=
    call (getCachedAnswer ext message) (EvGetCachedAnswer message) in
  match cachedResponse with
  | Some hit =>
      log LogInfo "Réponse servie depuis le cache (hit count:";;
      respond_answer message sessionId qUsed registered currentUser startTime
        (answer hit) true (num 0)
  | None =>
      ask_provider apiKey message
        (fun answer tokensUsed =>
           respond_answer message sessionId qUsed registered currentUser
             startTime answer false tokensUsed)
  end.

(** [c || d] on a cookie or environment variable that may be absent.  With
    [d] the empty string the result is empty exactly when [c] is falsy,
    which is all the handler asks of [user_email] and of the API key
    before it forwards them. *)
Definition cookie_or (c : option jsstring) (d : jsstring) : jsstring :=
  match c with
  | Some s => if is_empty s then d else s
  | None => d
  end.

Definition qUsed_of (req : Request) : jsnum :=
  parseInt (cookie_or (req_cookies req !! "q_used") (lit "0")).

Definition registered_of (req : Request) : bool :=
  bool_decide (req_cookies req !! "registered" = Some (lit "1")).

(** Lines 192 to 246, for a message that passed validation. *)
Definition admit_and_gate (req : Request) (message : jsstring) (sessionId : jsval)
    : M W unit :=
  let qUsed := qUsed_of req in
  let registered := registered_of req in
  let userEmail := cookie_or (req_cookies req !! "user_email") [] in
  log LogDebug "Cookies:";;
  let* currentUser :=
    if registered && negb (is_empty userEmail) then
      try_catch
        (call (findUserByEmail ext userEmail) (EvFindUserByEmail userEmail))
        (fun _ => log LogError "Erreur récupération utilisateur:";; ret None)
    else ret None in
  let clientIp := getClientIp ext req in
  let limiter := if registered then chatRateLimiterRegistered else chatRateLimiter in
  let identifier :=
    if registered && negb (is_empty userEmail) then userEmail else clientIp in
  let* rateLimit :=
    call (checkRateLimit ext limiter identifier) (EvCheckRateLimit limiter identifier) in
  if negb (rl_success rateLimit) then
    log LogSecurity "Rate limit dépassé pour";;
    sendRateLimitError rateLimit
  else
    addRateLimitHeaders rateLimit;;
    if negb registered && js_ge qUsed (Num 2) then
      send 200 (needSignup_body qUsed)
    else
      let apiKey := cookie_or (OPENAI_API_KEY req) [] in
      if is_empty apiKey then
        log LogError "OPENAI_API_KEY not found in environment variables";;
        send 500 configuration_missing_body
      else resolve_answer apiKey message sessionId qUsed registered currentUser.

(** Lines 185 to 367: the body of the [try] block. *)
Definition try_block (req : Request) : M W unit :=
  let* message := lift (get_prop (req_body req) "message") in
  let* sessionId := lift (get_prop (req_body req) "sessionId") in
  match message with
  | VStr text =>
      if is_empty text || is_empty (trim text)
      then send 400 message_required_body
      else admit_and_gate req text sessionId
  | other =>
      if truthy other then throw TypeError   (* [message.trim] is not a function *)
      else send 400 message_required_body
  end.

(** [export default async function handler(req, res)].  [setCorsHeaders]
    writes the CORS headers; when [handleCorsPreflight] returns true it has
    written the reply itself. *)
Definition handler (req : Request) : M W unit :=
  emit EvSetCorsHeaders;;
  setHeader CorsHeaders;;
  let* handled := ask (handleCorsPreflight ext req) EvHandleCorsPreflight in
  if handled then respond Preflight
  else if negb (String.eqb (req_method req) "POST") then
    send 405 method_not_allowed_body
  else
    try_catch (try_block req)
      (fun _ => log LogError "Chat API Error:";; send 500 internal_error_body).

(** The state in which the handler leaves a fresh response. *)
Definition run (req : Request) (w : W) : state W :=
  snd (handler req (mkState w [] [] None)).
End Handler.
End Chat.

(** ** api/conversations

    The conversations endpoint with its POST branch (src/unnamed/part_000,
    whose line numbers the comments below refer to). *)

Module Conversations.
Section Handler.
Context {W : Type} (ext : Externals W).

(** The GET, DELETE and PUT branches and the final 405 reply: session
    listing, deletion and renaming, which this development does not look
    into.  They are tried on the method name like the POST branch, and
    each of them returns. *)
Variable other_methods : Request -> User -> M W unit.

Definition authentication_required_body : jsval :=
  VObj [("error", str "Authentification requise");
        ("message", str "Vous devez être connecté pour accéder à vos conversations")].

Definition user_not_found_body : jsval :=
  VObj [("error", str "Utilisateur non trouvé")].

Definition messages_required_body : jsval :=
  VObj [("error", str "Messages requis")].

Definition unknown_action_body : jsval :=
  VObj [("error", str "Action non reconnue")].

Definition saved_body (sessionId : Z) : jsval :=
  VObj [("success", VBool true);
        ("sessionId", num sessionId);
        ("message", str "Messages sauvegardés avec succès")].

(** [v === 'text'] *)
Definition is_string (text : string) (v : jsval) : bool :=
  match v with
  | VStr s => bool_decide (s = lit text)
  | _ => false
  end.

(** [messages.find(m => m.role === 'user')] *)
Fixpoint find_user_message (messages : list jsval) : outcome (option jsval) :=
  match messages with
  | [] => Ok None
  | m :: rest =>
      match get_prop m "role" with
      | Ok role => if is_string "user" role then Ok (Some m) else find_user_message rest
      | Throw e => Throw e
      end
  end.

(** Lines 122 to 124.  [content.substring] is a function on strings only. *)
Definition session_title (firstUserMessage : option jsval) : outcome jsstring :=
  match firstUserMessage with
  | Some m =>
      match get_prop m "content" with
      | Ok (VStr content) =>
          Ok (substring0 50 content ++
              (if 50 <? Z.of_nat (length content) then lit "..." else []))%list
      | Ok _ => Throw TypeError
      | Throw e => Throw e
      end
  | None => Ok (lit "Conversation anonyme")
  end.

(** Lines 129 to 140: [for (const msg of messages)]. *)
Fixpoint save_messages (sessionId : Z) (messages : list jsval) : M W unit :=
  match messages with
  | [] => ret tt
  | msg :: rest =>
      let* role := lift (get_prop msg "role") in
      let* content := lift (get_prop msg "content") in
      call (addConversationMessage ext (num sessionId) role content
              {| tokensUsed := num 0; responseTimeMs := num 0; wasCached := false |})
           (EvAddConversationMessage (num sessionId) role content
              {| tokensUsed := num 0; responseTimeMs := num 0; wasCached := false |});;
      save_messages sessionId rest
  end.

(** Lines 110 to 158: the POST branch. *)
Definition post (req : Request) (user : User) : M W unit :=
  let* action := lift (get_prop (req_body req) "action") in
  let* messages := lift (get_prop (req_body req) "messages") in
  if is_string "saveAnonymous" action then
    match messages with
    | VArr (first :: others) =>
        let* firstUserMessage := lift (find_user_message (first :: others)) in
        let* title := lift (session_title firstUserMessage) in
        let* sessionId :=
          call (createConversationSession ext (user_id user) title)
               (EvCreateConversationSession (user_id user) title) in
        save_messages sessionId (first :: others);;
        log LogInfo "Messages anonymes sauvegardés:";;
        send 200 (saved_body sessionId)
    | _ => send 400 messages_required_body
    end
  else send 400 unknown_action_body.

(** Lines 194 to 207: the [catch] block. *)
Definition on_error (message : jsstring) : M W unit :=
  log LogError "Conversations API Error:";;
  if bool_decide (message = lit "Session non trouvée")
     || bool_decide (message = lit "Accès non autorisé à cette session")
  then send 404 (VObj [("error", VStr message)])
  else send 500 (VObj [("error", str "Erreur interne du serveur")]).

(** [export default async function handler(req, res)] *)
Definition handler (req : Request) : M W unit :=
  emit EvSetCorsHeaders;;
  setHeader CorsHeaders;;
  let* handled := ask (handleCorsPreflight ext req) EvHandleCorsPreflight in
  if handled then respond Preflight
  else
    try_catch
      (let registered :=
         bool_decide (req_cookies req !! "registered" = Some (lit "1")) in
       match req_cookies req !! "user_email" with
       | Some userEmail =>
           if negb registered || is_empty userEmail
           then send 401 authentication_required_body
           else
             let* found :=
               call (findUserByEmail ext userEmail) (EvFindUserByEmail userEmail) in
             match found with
             | None => send 404 user_not_found_body
             | Some user =>
                 if String.eqb (req_method req) "POST" then post req user
                 else other_methods req user
             end
       | None => send 401 authentication_required_body
       end)
      on_error.

Definition run (req : Request) (w : W) : state W :=
  snd (handler req (mkState w [] [] None)).
End Handler.
End Conversations.

(** ** lib/db.js over explicit tables *)

Record Session : Type := {
  ownerId : Z;
  title : jsstring;
  messageCount : Z
}.

Record Message : Type := {
  msg_session : Z;
  msg_role : jsval;
  msg_content : jsval;
  msg_meta : Metadata
}.

(** A world to run the handlers in.  The tables are those of lib/db.js; the
    limiter, the provider, the clock and the preflight helper follow a
    script. *)
Record World : Type := mkWorld {
  w_cache : gmap jsstring CachedAnswer;
  w_users : gmap jsstring User;
  w_sessions : gmap Z Session;
  w_messages : list Message;
  w_clock : Z;
  w_limits : limiter -> jsstring -> outcome RateLimit;
  w_provider : jsstring -> outcome FetchResponse;
  w_preflight : Request -> bool
}.

Definition with_cache (c : gmap jsstring CachedAnswer) (w : World) : World :=
  mkWorld c (w_users w) (w_sessions w) (w_messages w) (w_clock w) (w_limits w)
    (w_provider w) (w_preflight w).

Definition with_sessions (s : gmap Z Session) (ms : list Message) (w : World) : World :=
  mkWorld (w_cache w) (w_users w) s ms (w_clock w) (w_limits w)
    (w_provider w) (w_preflight w).

Definition with_clock (t : Z) (w : World) : World :=
  mkWorld (w_cache w) (w_users w) (w_sessions w) (w_messages w) t (w_limits w)
    (w_provider w) (w_preflight w).

(** Modelled from the spec: the case folding of the cache key in lib/db.js,
    which is not among the sources, one code unit at a time on Basic Latin
    and Latin-1; code units above U+00FF are left as they are. *)
Definition lower_char (c : N) : N :=
  if (65 <=? c)%N && (c <=? 90)%N then (c + 32)%N
  else if (192 <=? c)%N && (c <=? 222)%N && negb (c =? 215)%N then (c + 32)%N
  else c.

(** Modelled from the spec: "case-fold the question text". *)
Definition to_lower (s : jsstring) : jsstring := List.map lower_char s.

(** Modelled from the spec: the key normalization of lib/db.js, which is not
    among the sources.  "Trim and case-fold the question text before using
    it as the lookup/store key". *)
Definition normalize (question : jsstring) : jsstring := to_lower (trim question).

(** Modelled from the spec: [getCachedAnswer] of lib/db.js.
    "lookup(question) -> CachedAnswer | absent"; "a hit increments the
    counter and must not mutate the answer text". *)
Definition spec_getCachedAnswer (question : jsstring) (w : World)
    : outcome (option CachedAnswer) * World :=
  match w_cache w !! normalize question with
  | Some entry =>
      let hit := {| answer := answer entry; hitCount := hitCount entry + 1 |} in
      (Ok (Some hit), with_cache (<[normalize question := hit]> (w_cache w)) w)
  | None => (Ok None, w)
  end.

(** Modelled from the spec: [saveCachedAnswer] of lib/db.js.
    "store(question, answer) -> void", under the normalized key, with a hit
    counter that starts at zero. *)
Definition spec_saveCachedAnswer (question : jsstring) (ans : jsval) (w : World)
    : outcome unit * World :=
  (Ok tt,
   with_cache (<[normalize question := {| answer := ans; hitCount := 0 |}]> (w_cache w)) w).

(** Modelled from the spec: the title a new session gets from its seed.
    "First 50 characters of the triggering user message, ellipsis-suffixed
    if truncated". *)
Definition seed_title (seed : jsstring) : jsstring :=
  if (50 <? Z.of_nat (length seed)) then take 50 seed ++ lit "..." else seed.

Definition fresh_session_id (w : World) : Z :=
  1 + map_fold (fun id _ acc => Z.max id acc) 0 (w_sessions w).

(** Modelled from the spec: [createConversationSession] of lib/db.js.
    "A new session is created, titled from the seed content"; it belongs to
    the owner and has no message yet. *)
Definition spec_createConversationSession (owner : Z) (seed : jsstring) (w : World)
    : outcome Z * World :=
  let id := fresh_session_id w in
  (Ok id,
   with_sessions
     (<[id := {| ownerId := owner; title := seed_title seed; messageCount := 0 |}]>
        (w_sessions w))
     (w_messages w) w).

(** Modelled from the spec: [addConversationMessage] of lib/db.js.
    "Append-only"; an append raises the session's message count by one, and
    fails on an identifier that names no session. *)
Definition spec_addConversationMessage (sessionId role content : jsval)
    (meta : Metadata) (w : World) : outcome unit * World :=
  match sessionId with
  | VNum (Num id) =>
      match w_sessions w !! id with
      | Some s =>
          (Ok tt,
           with_sessions
             (<[id := {| ownerId := ownerId s; title := title s;
                         messageCount := messageCount s + 1 |}]> (w_sessions w))
             (w_messages w ++
                [{| msg_session := id; msg_role := role; msg_content := content;
                    msg_meta := meta |}])
             w)
      | None => (Throw (lit "Session non trouvée"), w)
      end
  | _ => (Throw (lit "Session non trouvée"), w)
  end.

Definition world_externals : Externals World := {|
  handleCorsPreflight := fun req w => (w_preflight w req, w);
  findUserByEmail := fun email w => (Ok (w_users w !! email), w);
  getClientIp := req_ip;
  checkRateLimit := fun l id w => (w_limits w l id, w);
  getCachedAnswer := spec_getCachedAnswer;
  saveCachedAnswer := spec_saveCachedAnswer;
  fetch := fun key message w => (w_provider w message, w);
  createConversationSession := spec_createConversationSession;
  addConversationMessage := spec_addConversationMessage;
  now := fun w => (w_clock w, with_clock (w_clock w + 1) w)
|}.

(** ** Observing a run *)

(** The status of a JSON reply. *)
Definition reply_code (r : option reply) : option Z :=
  match r with
  | Some (Json code _) => Some code
  | _ => None
  end.

(** A property of the body of a JSON reply, [undefined] when there is none. *)
Definition reply_field (k : string) (r : option reply) : jsval :=
  match r with
  | Some (Json _ (VObj fields)) => assoc k fields
  | _ => VUndefined
  end.

Definition is_cache_lookup (ev : event) : bool :=
  match ev with EvGetCachedAnswer _ _ => true | _ => false end.

Definition is_provider_call (ev : event) : bool :=
  match ev with EvFetch _ _ _ => true | _ => false end.

Definition is_cache_store (ev : event) : bool :=
  match ev with EvSaveCachedAnswer _ _ _ => true | _ => false end.

(** Session creation or message append. *)
Definition is_recording (ev : event) : bool :=
  match ev with
  | EvCreateConversationSession _ _ _ | EvAddConversationMessage _ _ _ _ _ => true
  | _ => false
  end.

(** A recording step that threw. *)
Definition is_failed_recording (ev : event) : bool :=
  match ev with
  | EvCreateConversationSession _ _ (Throw _)
  | EvAddConversationMessage _ _ _ _ (Throw _) => true
  | _ => false
  end.

(** The work that admission control protects: cache, provider, recording. *)
Definition is_costly (ev : event) : bool :=
  is_cache_lookup ev || is_provider_call ev || is_cache_store ev || is_recording ev.

Definition never (p : event -> bool) (t : list event) : bool :=
  forallb (fun ev => negb (p ev)) t.

Definition is_cookie (h : header) : bool :=
  match h with SetCookie _ _ _ => true | _ => false end.

Definition is_usage (h : header) : bool :=
  match h with UsageHeaders _ _ _ => true | _ => false end.

(** The answer a run produced and whether the cache served it: the entry of
    the first cache hit, or else what was handed to the cache after the
    provider replied. *)
Fixpoint produced_answer (t : list event) : option (jsval * bool) :=
  match t with
  | [] => None
  | EvGetCachedAnswer _ (Ok (Some hit)) :: _ => Some (answer hit, true)
  | EvSaveCachedAnswer _ ans _ :: _ => Some (ans, false)
  | _ :: rest => produced_answer rest
  end.

(** A decision of the limiter reached the handler. *)
Definition is_decision (ev : event) : bool :=
  match ev with EvCheckRateLimit _ _ (Ok _) => true | _ => false end.

(** [findUserByEmail] resolved to a user. *)
Definition is_owner_found (ev : event) : bool :=
  match ev with EvFindUserByEmail _ (Ok (Some _)) => true | _ => false end.

(** What follows the first event of a kind. *)
Fixpoint events_after (p : event -> bool) (t : list event) : list event :=
  match t with
  | [] => []
  | ev :: rest => if p ev then rest else events_after p rest
  end.

(** The usage headers that the decisions in a trace call for. *)
Fixpoint decided_usage (t : list event) : list header :=
  match t with
  | [] => []
  | EvCheckRateLimit _ _ (Ok rl) :: rest =>
      UsageHeaders (rl_limit rl) (rl_remaining rl) (rl_reset rl) :: decided_usage rest
  | _ :: rest => decided_usage rest
  end.

(** A session was created. *)
Definition is_create (ev : event) : bool :=
  match ev with EvCreateConversationSession _ _ _ => true | _ => false end.



(** ** Scenarios *)

Definition admitted : RateLimit :=
  {| rl_success := true; rl_limit := 10; rl_remaining := 9; rl_reset := 1000 |}.

Definition denied : RateLimit :=
  {| rl_success := false; rl_limit := 10; rl_remaining := 0; rl_reset := 1000 |}.

Definition allow_all : limiter -> jsstring -> outcome RateLimit :=
  fun _ _ => Ok admitted.

Definition deny_all : limiter -> jsstring -> outcome RateLimit :=
  fun _ _ => Ok denied.

Definition provider_says (text : string) : jsstring -> outcome FetchResponse :=
  fun _ =>
    Ok {| ok := true; status := 200; statusText := lit "OK";
          json := Ok (VObj [("choices",
                             VArr [VObj [("message", VObj [("content", str text)])]]);
                            ("usage", VObj [("total_tokens", num 42)])]) |}.

Definition unavailable : FetchResponse :=
  {| ok := false; status := 503; statusText := lit "Service Unavailable";
     json := Ok (VObj [("error", VObj [("message", str "upstream overloaded")])]) |}.

Definition provider_down : jsstring -> outcome FetchResponse :=
  fun _ => Ok unavailable.

(** Empty tables, one account, the clock at zero. *)
Definition fresh_world (limits : limiter -> jsstring -> outcome RateLimit)
    (provider : jsstring -> outcome FetchResponse) : World :=
  mkWorld ∅ {[ lit "ada@example.org" := {| user_id := 7 |} ]} ∅ [] 0
    limits provider (fun _ => false).

Definition chat_request (cookies : gmap string jsstring) (body : jsval) : Request :=
  {| req_method := "POST";
     req_body := body;
     req_cookies := cookies;
     req_ip := lit "203.0.113.7";
     OPENAI_API_KEY := Some (lit "sk-test") |}.

Definition anonymous (q_used : string) : gmap string jsstring :=
  {[ "q_used" := lit q_used ]}.

Definition signed_in (email : string) (q_used : string) : gmap string jsstring :=
  <[ "registered" := lit "1" ]> (<[ "user_email" := lit email ]> (anonymous q_used)).

Definition question (text : string) : jsval := VObj [("message", str text)].

(** A world whose cache already holds the answer to one question. *)
Definition warm_world : World :=
  with_cache {[ lit "what is x?" := {| answer := str "X is a letter."; hitCount := 3 |} ]}
    (fresh_world allow_all (provider_says "X is a letter.")).


(** The body of a [saveAnonymous] request. *)
Definition anonymous_messages (messages : list jsval) : jsval :=
  VObj [("action", str "saveAnonymous"); ("messages", VArr messages)].

Definition message_of (role content : string) : jsval :=
  VObj [("role", str role); ("content", str content)].

(** A message of white space only, from a caller the limiter would admit. *)
Definition blank_message_run : state World :=
  Chat.run world_externals (chat_request (anonymous "0") (question "   "))
    (fresh_world allow_all (provider_says "X is a letter.")).

(** ** Further observations of a run *)

Definition is_user_lookup (ev : event) : bool :=
  match ev with EvFindUserByEmail _ _ => true | _ => false end.

Definition is_rate_check (ev : event) : bool :=
  match ev with EvCheckRateLimit _ _ _ => true | _ => false end.

(** The limiter admitted the request. *)
Definition is_admission (ev : event) : bool :=
  match ev with EvCheckRateLimit _ _ (Ok rl) => rl_success rl | _ => false end.

Definition is_cache_hit (ev : event) : bool :=
  match ev with EvGetCachedAnswer _ (Ok (Some _)) => true | _ => false end.

Definition is_append (ev : event) : bool :=
  match ev with EvAddConversationMessage _ _ _ _ _ => true | _ => false end.

(** An append that went through. *)
Definition is_appended (ev : event) : bool :=
  match ev with EvAddConversationMessage _ _ _ _ (Ok _) => true | _ => false end.

Definition is_clock (ev : event) : bool :=
  match ev with EvNow _ => true | _ => false end.

(** A session creation that went through. *)
Definition is_created (ev : event) : bool :=
  match ev with EvCreateConversationSession _ _ (Ok _) => true | _ => false end.

(** How many events of a kind a trace holds. *)
Definition count (p : event -> bool) (t : list event) : nat :=
  length (List.filter p t).

(** What precedes the first event of a kind (the whole trace when there is
    none). *)
Fixpoint events_before (p : event -> bool) (t : list event) : list event :=
  match t with
  | [] => []
  | ev :: rest => if p ev then [] else ev :: events_before p rest
  end.

(** The metadata of a user message (lines 322 to 326 of the chat handler). *)
Definition user_metadata : Metadata :=
  {| tokensUsed := num 0; responseTimeMs := VNull; wasCached := false |}.

(** The metadata of every message that [saveAnonymous] appends. *)
Definition anonymous_metadata : Metadata :=
  {| tokensUsed := num 0; responseTimeMs := num 0; wasCached := false |}.

(** The appends of [saveAnonymous] for a list of messages, when each of them
    goes through. *)
Definition anonymous_appends (sessionId : Z) (messages : list jsval) : list event :=
  List.map
    (fun msg =>
       EvAddConversationMessage (num sessionId) (opt_prop msg "role")
         (opt_prop msg "content") anonymous_metadata (Ok tt))
    messages.

(** [messages] is an array with an element. *)
Definition is_message_list (v : jsval) : bool :=
  match v with VArr (_ :: _) => true | _ => false end.

(** ** Session listing, deletion and renaming

    The GET, DELETE and PUT branches of the conversations endpoint and its
    405 reply (src/unnamed/part_000, lines 49 to 105 and 160 to 192; the same
    text is in src/api/conversations.js, lines 47 to 137, whose 405 reply
    lists three methods instead of four).  *)

(** The functions of lib/db.js that these branches call. *)
Record SessionStore (W : Type) : Type := {
  getUserConversationStats : Z -> W -> outcome jsval * W;
  getSessionMessages : jsnum -> Z -> W -> outcome jsval * W;
  getUserConversationSessions : Z -> jsval -> W -> outcome (list jsval) * W;
  deleteConversationSession : jsnum -> Z -> W -> outcome unit * W;
  updateSessionTitle : jsnum -> Z -> jsval -> W -> outcome unit * W
}.
Arguments getUserConversationStats {W}.
Arguments getSessionMessages {W}.
Arguments getUserConversationSessions {W}.
Arguments deleteConversationSession {W}.
Arguments updateSessionTitle {W}.

(** [parseInt(v)] on a value of a JSON body: [parseInt] reads the string the
    value converts to, which for an array starts with the string of its
    first element and for the other values that are not strings or numbers
    has no digit.  A number is returned as it is, which is what [parseInt]
    gives for an integer that prints without an exponent (below 10^21 in
    magnitude). *)
Fixpoint parseInt_value (v : jsval) : jsnum :=
  match v with
  | VStr s => parseInt s
  | VNum n => n
  | VArr (first :: _) => parseInt_value first
  | _ => NaN
  end.

(** [parseInt(q)] on a query parameter that may be absent: the text
    [undefined] has no digit. *)
Definition parseInt_query (q : option jsstring) : jsnum :=
  match q with
  | Some s => parseInt s
  | None => NaN
  end.

(** [a > b] on numbers: false as soon as one side is [NaN]. *)
Definition js_gt (a b : jsnum) : bool :=
  match a, b with
  | Num x, Num y => y <? x
  | _, _ => false
  end.

(** [v.length] on a truthy value. *)
Definition js_length (v : jsval) : jsval :=
  match v with
  | VStr s => num (Z.of_nat (length s))
  | VArr items => num (Z.of_nat (length items))
  | VObj fields => assoc "length" fields
  | _ => VUndefined
  end.

Module Sessions.
Section Branches.
Context {W : Type} (db : SessionStore W).

(** The number that a string, an array or an object converts to when it is
    compared with a number (ECMAScript's ToNumber), which this development
    does not compute.  It is consulted only for a [title] whose [length] is
    such a value. *)
Variable ToNumber : jsval -> jsnum.

(** [await f(...)] on a function of the session store. *)
Definition invoke {A} (f : W -> outcome A * W) : M W A :=
  fun st =>
    let '(r, w) := f (world st) in
    (r, mkState w (trace st) (headers st) (sent st)).

(** [v > bound] for a number [bound]: the comparison is made on the number
    that [v] converts to. *)
Definition exceeds (v : jsval) (bound : Z) : bool :=
  match v with
  | VUndefined => js_gt NaN (Num bound)
  | VNull => js_gt (Num 0) (Num bound)
  | VBool b => js_gt (Num (if b then 1 else 0)) (Num bound)
  | VNum n => js_gt n (Num bound)
  | other => js_gt (ToNumber other) (Num bound)
  end.

Definition session_id_required_body : jsval :=
  VObj [("error", str "sessionId requis")].

Definition fields_required_body : jsval :=
  VObj [("error", str "sessionId et title requis")].

Definition title_too_long_body : jsval :=
  VObj [("error", str "Le titre ne peut pas dépasser 255 caractères")].

Definition deleted_body : jsval :=
  VObj [("success", VBool true); ("message", str "Session supprimée avec succès")].

Definition renamed_body : jsval :=
  VObj [("success", VBool true); ("message", str "Titre mis à jour avec succès")].

Definition method_not_supported_body (allowed : list string) : jsval :=
  VObj [("error", str "Méthode non supportée");
        ("allowed", VArr (List.map str allowed))].

(** [parseInt(req.query.limit) || 20] *)
Definition list_limit (query : gmap string jsstring) : jsval :=
  js_or (VNum (parseInt_query (query !! "limit"))) (num 20).

(** Lines 52 to 83: the GET branch.  A query parameter is a string or
    absent. *)
Definition get (query : gmap string jsstring) (user : User) : M W unit :=
  let sessionId := Chat.cookie_or (query !! "sessionId") [] in
  if bool_decide (query !! "action" = Some (lit "stats")) then
    let* stats := invoke (getUserConversationStats db (user_id user)) in
    send 200 (VObj [("success", VBool true); ("stats", stats)])
  else if negb (is_empty sessionId) then
    let* messages :=
      invoke (getSessionMessages db (parseInt sessionId) (user_id user)) in
    send 200 (VObj [("success", VBool true);
                    ("sessionId", VNum (parseInt sessionId));
                    ("messages", messages)])
  else
    let limit := list_limit query in
    let* sessions :=
      invoke (getUserConversationSessions db (user_id user) limit) in
    send 200 (VObj [("success", VBool true);
                    ("sessions", VArr sessions);
                    ("count", num (Z.of_nat (length sessions)))]).

(** Lines 88 to 105: the DELETE branch. *)
Definition delete (query : gmap string jsstring) (user : User) : M W unit :=
  let sessionId := Chat.cookie_or (query !! "sessionId") [] in
  if is_empty sessionId then send 400 session_id_required_body
  else
    invoke (deleteConversationSession db (parseInt sessionId) (user_id user));;
    log LogInfo "Session supprimée:";;
    send 200 deleted_body.

(** Lines 163 to 186: the PUT branch. *)
Definition put (req : Request) (user : User) : M W unit :=
  let* sessionId := lift (get_prop (req_body req) "sessionId") in
  let* title := lift (get_prop (req_body req) "title") in
  if negb (truthy sessionId) || negb (truthy title) then
    send 400 fields_required_body
  else if exceeds (js_length title) 255 then
    send 400 title_too_long_body
  else
    invoke (updateSessionTitle db (parseInt_value sessionId) (user_id user) title);;
    log LogDebug "Titre de session mis à jour:";;
    send 200 renamed_body.

(** The branches in the order of the source, without the POST branch, and
    the final 405 reply with the methods it lists. *)
Definition dispatch (allowed : list string) (query : gmap string jsstring)
    (req : Request) (user : User) : M W unit :=
  if String.eqb (req_method req) "GET" then get query user
  else if String.eqb (req_method req) "DELETE" then delete query user
  else if String.eqb (req_method req) "PUT" then put req user
  else send 405 (method_not_supported_body allowed).

(** What the handler of src/unnamed/part_000 does when the method is not
    POST. *)
Definition other_methods (query : gmap string jsstring) :
    Request -> User -> M W unit :=
  dispatch ["GET"; "POST"; "DELETE"; "PUT"] query.
End Branches.
End Sessions.

(** ** The conversations endpoint before it saved anonymous messages

    The first handler of src/api/conversations.js (lines 17 to 153): the
    same authentication, branches and [catch] block, without a POST
    branch. *)

Module Legacy.
Section Handler.
Context {W : Type} (ext : Externals W) (db : SessionStore W).
Variable ToNumber : jsval -> jsnum.

(** [export default async function handler(req, res)] *)
Definition handler (query : gmap string jsstring) (req : Request) : M W unit :=
  emit EvSetCorsHeaders;;
  setHeader CorsHeaders;;
  let* handled := ask (handleCorsPreflight ext req) EvHandleCorsPreflight in
  if handled then respond Preflight
  else
    try_catch
      (let registered :=
         bool_decide (req_cookies req !! "registered" = Some (lit "1")) in
       match req_cookies req !! "user_email" with
       | Some userEmail =>
           if negb registered || is_empty userEmail
           then send 401 Conversations.authentication_required_body
           else
             let* found :=
               call (findUserByEmail ext userEmail) (EvFindUserByEmail userEmail) in
             match found with
             | None => send 404 Conversations.user_not_found_body
             | Some user =>
                 Sessions.dispatch db ToNumber ["GET"; "DELETE"; "PUT"] query req user
             end
       | None => send 401 Conversations.authentication_required_body
       end)
      Conversations.on_error.

Definition run (query : gmap string jsstring) (req : Request) (w : W) : state W :=
  snd (handler query req (mkState w [] [] None)).
End Handler.
End Legacy.

(** ** A journal of the calls to the session store *)

Inductive db_call : Type :=
| GetUserConversationStats (userId : Z)
| GetSessionMessages (sessionId : jsnum) (userId : Z)
| GetUserConversationSessions (userId : Z) (limit : jsval)
| DeleteConversationSession (sessionId : jsnum) (userId : Z)
| UpdateSessionTitle (sessionId : jsnum) (userId : Z) (title : jsval).

(** The account a call is made for. *)
Definition call_user (c : db_call) : Z :=
  match c with
  | GetUserConversationStats u | GetSessionMessages _ u
  | GetUserConversationSessions u _ | DeleteConversationSession _ u
  | UpdateSessionTitle _ u _ => u
  end.

(** What the store answered: nothing of note, or the message it threw. *)
Definition failure_of {A} (r : outcome A) : option jsstring :=
  match r with
  | Ok _ => None
  | Throw message => Some message
  end.

Section Journal.
Context {W : Type}.

(** A step on the world that leaves a journal alone. *)
Definition aside {A J} (f : W -> A * W) : W * J -> A * (W * J) :=
  fun wj => let '(a, w) := f (fst wj) in (a, (w, snd wj)).

(** A call to the store that is written to the journal with its failure. *)
Definition noted {A} (c : db_call) (f : W -> outcome A * W)
    : W * list (db_call * option jsstring)
      -> outcome A * (W * list (db_call * option jsstring)) :=
  fun wj =>
    let '(r, w) := f (fst wj) in
    (r, (w, (snd wj ++ [(c, failure_of r)])%list)).

(** The helpers of the handlers beside a journal. *)
Definition beside_journal {J} (ext : Externals W) : Externals (W * J) := {|
  handleCorsPreflight := fun req => aside (handleCorsPreflight ext req);
  findUserByEmail := fun email => aside (findUserByEmail ext email);
  getClientIp := getClientIp ext;
  checkRateLimit := fun l id => aside (checkRateLimit ext l id);
  getCachedAnswer := fun q => aside (getCachedAnswer ext q);
  saveCachedAnswer := fun q a => aside (saveCachedAnswer ext q a);
  fetch := fun key m => aside (fetch ext key m);
  createConversationSession := fun u seed => aside (createConversationSession ext u seed);
  addConversationMessage :=
    fun sid role content meta => aside (addConversationMessage ext sid role content meta);
  now := aside (now ext)
|}.

(** A session store that notes every call it gets. *)
Definition journaled (db : SessionStore W)
    : SessionStore (W * list (db_call * option jsstring)) := {|
  getUserConversationStats :=
    fun u => noted (GetUserConversationStats u) (getUserConversationStats db u);
  getSessionMessages :=
    fun sid u => noted (GetSessionMessages sid u) (getSessionMessages db sid u);
  getUserConversationSessions :=
    fun u limit =>
      noted (GetUserConversationSessions u limit) (getUserConversationSessions db u limit);
  deleteConversationSession :=
    fun sid u =>
      noted (DeleteConversationSession sid u) (deleteConversationSession db sid u);
  updateSessionTitle :=
    fun sid u title =>
      noted (UpdateSessionTitle sid u title) (updateSessionTitle db sid u title)
|}.
End Journal.

(** A run of the conversations endpoint of src/unnamed/part_000 with all
    its branches, the calls to the session store being journaled. *)
Definition journal_run {W : Type} (ext : Externals W) (db : SessionStore W)
    (ToNumber : jsval -> jsnum) (query : gmap string jsstring) (req : Request)
    (w : W) : state (W * list (db_call * option jsstring)) :=
  Conversations.run (beside_journal ext)
    (Sessions.other_methods (journaled db) ToNumber query) req (w, []).

(** The calls that a run made to the session store. *)
Definition journal {W : Type} (st : state (W * list (db_call * option jsstring)))
    : list db_call :=
  List.map fst (snd (world st)).

(** The messages thrown in a run by the helpers that are traced and by the
    session store. *)
Definition thrown_in_trace (ev : event) : option jsstring :=
  match ev with
  | EvFindUserByEmail _ r => failure_of r
  | EvCreateConversationSession _ _ r => failure_of r
  | EvAddConversationMessage _ _ _ _ r => failure_of r
  | _ => None
  end.

Definition thrown {W : Type} (st : state (W * list (db_call * option jsstring)))
    : list jsstring :=
  (omap thrown_in_trace (trace st) ++ omap snd (snd (world st)))%list.

(** ** More scenarios *)

(** A session store that answers with fixed values. *)
Definition quiet_store : SessionStore World := {|
  getUserConversationStats := fun _ w => (Ok (VObj [("totalSessions", num 0)]), w);
  getSessionMessages := fun _ _ w => (Ok (VArr []), w);
  getUserConversationSessions := fun _ _ w => (Ok [], w);
  deleteConversationSession := fun _ _ w => (Ok tt, w);
  updateSessionTitle := fun _ _ _ w => (Ok tt, w)
|}.

(** Strings, arrays and objects that do not convert to a number. *)
Definition no_number : jsval -> jsnum := fun _ => NaN.

Definition request_with (method : string) (cookies : gmap string jsstring)
    (body : jsval) : Request :=
  {| req_method := method;
     req_body := body;
     req_cookies := cookies;
     req_ip := lit "203.0.113.7";
     OPENAI_API_KEY := Some (lit "sk-test") |}.

(** A deployment without a provider key. *)
Definition without_key (req : Request) : Request :=
  {| req_method := req_method req;
     req_body := req_body req;
     req_cookies := req_cookies req;
     req_ip := req_ip req;
     OPENAI_API_KEY := None |}.

(** A completion whose content is the empty string. *)
Definition empty_completion : FetchResponse :=
  {| ok := true; status := 200; statusText := lit "OK";
     json := Ok (VObj [("choices",
                        VArr [VObj [("message", VObj [("content", str "")])]]);
                       ("usage", VObj [("total_tokens", num 42)])]) |}.

(** The helpers over the tables, with a user table that cannot be reached. *)
Definition lookup_down : Externals World := {|
  handleCorsPreflight := handleCorsPreflight world_externals;
  findUserByEmail := fun _ w => (Throw (lit "connection refused"), w);
  getClientIp := getClientIp world_externals;
  checkRateLimit := checkRateLimit world_externals;
  getCachedAnswer := getCachedAnswer world_externals;
  saveCachedAnswer := saveCachedAnswer world_externals;
  fetch := fetch world_externals;
  createConversationSession := createConversationSession world_externals;
  addConversationMessage := addConversationMessage world_externals;
  now := now world_externals
|}.

(** A session store that knows no session. *)
Definition strict_store : SessionStore World := {|
  getUserConversationStats := fun _ w => (Ok (VObj [("totalSessions", num 0)]), w);
  getSessionMessages := fun _ _ w => (Throw (lit "Session non trouvée"), w);
  getUserConversationSessions := fun _ _ w => (Ok [], w);
  deleteConversationSession := fun _ _ w => (Throw (lit "Session non trouvée"), w);
  updateSessionTitle := fun _ _ _ w => (Throw (lit "Session non trouvée"), w)
|}.

(** Two messages typed before signing up. *)
Definition two_messages : jsval :=
  anonymous_messages
    [message_of "assistant" "Bonjour"; message_of "user" "Quels sont les frais ?"].

(** * Properties *)

(** ** Symbolic execution of a handler run *)

Arguments lit : simpl never.
Arguments str : simpl never.
Arguments trim : simpl never.
Arguments parseInt : simpl never.
Arguments js_toString : simpl never.
Arguments normalize : simpl never.
Arguments Chat.qUsed_of : simpl never.
Arguments Chat.registered_of : simpl never.

(** One case analysis on an innermost scrutinee of the goal. *)
Ltac case_step :=
  match goal with
  | |- context [match ?x with _ => _ end] =>
      lazymatch x with
      | context [match _ with _ => _ end] => fail
      | _ => destruct x eqn:?
      end
  end.

Ltac monad_steps :=
  unfold bind, ret, throw, try_catch, lift, emit, call, ask, setHeader, respond;
  cbn [world trace headers sent fst snd app negb andb orb].

Ltac unfold_chat :=
  unfold Chat.run, Chat.handler, Chat.try_block, Chat.admit_and_gate,
    Chat.resolve_answer, Chat.ask_provider, Chat.respond_answer,
    Chat.record_conversation, Chat.dateNow, addRateLimitHeaders,
    sendRateLimitError, send, log.

(** Every path of a handler run, one goal per path.  The goal starts with
    [let fin := run in]; the run is unfolded by [open] and evaluated by
    [steps] and case analysis while the statement about [fin] is set aside,
    and each resulting goal is that statement at the final state of a path. *)
Ltac paths open steps :=
  let fin := fresh "fin" in
  let Hfin := fresh "Hfin" in
  let post := fresh "post" in
  intros fin;
  match goal with fin' := ?body |- _ => assert (Hfin : fin' = body) by reflexivity end;
  clearbody fin;
  pattern fin;
  match goal with |- ?P fin => set (post := P) end;
  revert Hfin;
  open; steps; repeat (case_step; steps);
  intros Hfin; subst fin; subst post; cbv beta;
  cbn [world trace headers sent].

Ltac chat_paths := paths unfold_chat monad_steps.

Ltac world_steps :=
  cbn [handleCorsPreflight findUserByEmail getClientIp checkRateLimit
       getCachedAnswer saveCachedAnswer fetch createConversationSession
       addConversationMessage now world_externals];
  unfold spec_getCachedAnswer, spec_saveCachedAnswer,
    spec_createConversationSession, spec_addConversationMessage;
  monad_steps;
  cbn [w_cache w_users w_sessions w_messages w_clock w_limits w_provider
       w_preflight with_cache with_sessions with_clock num].

(** Every path of the chat handler in the table-backed world. *)
Ltac chat_world_paths := paths unfold_chat world_steps.

Ltac unfold_conversations :=
  unfold Conversations.run, Conversations.handler, Conversations.post,
    Conversations.on_error, send, log.



(** Membership of an event in a trace that is now explicit. *)
Ltac trace_facts :=
  repeat match goal with
    | H : In _ (_ :: _) |- _ => destruct H as [H | H]
    | H : In _ [] |- _ => destruct H
    | H : @eq event _ _ |- _ => first [discriminate H | injection H as ?; subst]
    | H : @eq header _ _ |- _ => first [discriminate H | injection H as ?; subst]
    end.

(** ** The anonymous quota gate *)

(** C1: for an unauthenticated caller whose counter [qUsed] is at least 2,
    once the rate limiter has admitted the request, the chat handler replies
    with status 200, [success: false], [needSignup: true], the incoming
    [qUsed] and [remaining: 0], and the run contains neither a cache lookup
    nor a provider call. *)
Theorem quota_exhausted_needs_signup (W : Type) (ext : Externals W)
    (req : Request) (w : W) (z : Z) (l : limiter) (id : jsstring) (rl : RateLimit) :
  let fin := Chat.run ext req w in
  Chat.registered_of req = false ->
  Chat.qUsed_of req = Num z ->
  2 <= z ->
  In (EvCheckRateLimit l id (Ok rl)) (trace fin) ->
  rl_success rl = true ->
  reply_code (sent fin) = Some 200 /\
  reply_field "success" (sent fin) = VBool false /\
  reply_field "needSignup" (sent fin) = VBool true /\
  reply_field "qUsed" (sent fin) = num z /\
  reply_field "remaining" (sent fin) = num 0 /\
  never is_cache_lookup (trace fin) = true /\
  never is_provider_call (trace fin) = true.
Proof.
  chat_paths; intros Hreg Hq Hz Hin Hs; trace_facts;
    rewrite ?Hreg, ?Hq, ?Hs in *; try discriminate.
  all: match goal with H : js_ge _ _ = false |- _ => apply Z.leb_gt in H; lia | _ => idtac end.
  all: repeat split; reflexivity.
Qed.

(** ** Admission control comes first *)

(** Reading a property off a body either works for every name or throws
    for every name. *)
Lemma get_prop_all_or_none (v a : jsval) (k k' : string) (e : jsstring) :
  get_prop v k = Ok a -> get_prop v k' = Throw e -> False.
Proof.
  destruct v; cbn; intros Hok Hthrow; first [discriminate Hok | discriminate Hthrow].
Qed.

(** C3: admission control comes before the quota gate and before everything
    that costs.  When the rate limiter denies a request, the reply is the
    denial of [sendRateLimitError] for that decision; the check is followed
    by the denial alone, so the quota gate is not evaluated; no counter
    cookie is set; and the run contains no cache lookup, provider call,
    cache store or conversation recording.  The limiter is asked for every
    POST with a message, whatever the counter cookie says, and the signup
    prompt of the quota gate is sent only in a run in which the limiter
    admitted the request. *)
Theorem rate_limit_denial_comes_first (W : Type) (ext : Externals W)
    (req : Request) (w : W) :
  let fin := Chat.run ext req w in
  (forall (l : limiter) (id : jsstring) (rl : RateLimit),
     In (EvCheckRateLimit l id (Ok rl)) (trace fin) ->
     rl_success rl = false ->
     sent fin = Some (RateLimited rl) /\
     events_after is_decision (trace fin) =
       [EvLog LogSecurity "Rate limit dépassé pour"; EvSendRateLimitError rl] /\
     filter is_cookie (headers fin) = [] /\
     never is_costly (trace fin) = true) /\
  (In (EvHandleCorsPreflight false) (trace fin) ->
   req_method req = "POST" ->
   (exists text : jsstring,
      get_prop (req_body req) "message" = Ok (VStr text) /\
      is_empty (trim text) = false) ->
   existsb is_rate_check (trace fin) = true) /\
  (reply_field "needSignup" (sent fin) = VBool true ->
   existsb is_admission (trace fin) = true).
Proof.
  chat_paths.
  all: split;
    [ intros l id rl Hin Hs; trace_facts; rewrite ?Hs in *; try discriminate;
      repeat split; reflexivity
    | split;
      [ intros Hpre Hpost (text & Hmsg & Hblank)
      | intros Hprompt; try discriminate Hprompt ] ].
  all: try (trace_facts; fail).
  all: try match goal with
           | H : negb (req_method _ =? "POST")%string = true |- _ =>
               rewrite Hpost in H; discriminate H
           | H1 : get_prop ?b _ = Ok _, H2 : get_prop ?b _ = Throw _ |- _ =>
               destruct (get_prop_all_or_none _ _ _ _ _ H1 H2)
           end.
  all: try discriminate Hmsg.
  all: try match goal with
           | H : is_empty ?s || is_empty (trim ?s) = true |- _ =>
               injection Hmsg as ->; rewrite Hblank, orb_false_r in H;
               destruct text; [discriminate Hblank | discriminate H]
           end.
  all: try match goal with
           | H : negb (rl_success ?rl) = false |- existsb is_admission _ = true =>
               apply negb_false_iff in H; cbn [existsb is_admission orb]; rewrite H
           end.
  all: reflexivity.
Qed.

(** ** Provider failure *)

(** C7: when the provider call of a cache miss returns a non-success status,
    the reply is status 500 with a fixed body whose only property is a
    generic error text, nothing of the upstream response; the reply carries
    no answer, and nothing is cached or recorded. *)
Theorem provider_failure_is_generic (W : Type) (ext : Externals W)
    (req : Request) (w : W) (key message : jsstring) (upstream : FetchResponse) :
  let fin := Chat.run ext req w in
  In (EvFetch key message (Ok upstream)) (trace fin) ->
  ok upstream = false ->
  sent fin =
    Some (Json 500
            (VObj [("error",
                    str "Erreur lors de la génération de la réponse. Veuillez réessayer.")])) /\
  reply_field "response" (sent fin) = VUndefined /\
  never is_cache_store (trace fin) = true /\
  never is_recording (trace fin) = true /\
  In (EvGetCachedAnswer message (Ok None)) (trace fin).
Proof.
  chat_paths; intros Hin Hs; trace_facts;
    rewrite ?Hs in *; try discriminate.
  all: repeat split; try reflexivity; simpl; tauto.
Qed.

(** ** Usage headers *)

(** C9, as the code has it: the usage headers on the response of the answer
    endpoint are those of the rate limiter's decision, whether it admits or
    denies (the quota-exhausted reply included); a request answered before
    the limiter is consulted or without a decision (preflight, wrong method,
    missing or empty message, a limiter that throws) carries none. *)
Theorem usage_headers_follow_the_decision (W : Type) (ext : Externals W)
    (req : Request) (w : W) :
  let fin := Chat.run ext req w in
  filter is_usage (headers fin) = decided_usage (trace fin).
Proof.
  chat_paths; reflexivity.
Qed.

(** ** A registered cookie without an owner *)

(** C10: when the cookies assert [registered=1] and no owner is resolved
    (the e-mail matches no user, or the lookup throws), the caller is still
    treated as registered: the reply is never the signup prompt, no counter
    cookie is set, no session or message is recorded, and a success reply
    reports the incoming counter and [remaining] as unlimited. *)
Theorem registered_without_owner (W : Type) (ext : Externals W)
    (req : Request) (w : W) :
  let fin := Chat.run ext req w in
  Chat.registered_of req = true ->
  never is_owner_found (trace fin) = true ->
  reply_field "needSignup" (sent fin) = VUndefined /\
  filter is_cookie (headers fin) = [] /\
  never is_recording (trace fin) = true /\
  (reply_field "success" (sent fin) = VBool true ->
   reply_field "qUsed" (sent fin) = VNum (Chat.qUsed_of req) /\
   reply_field "remaining" (sent fin) = str "illimité").
Proof.
  chat_paths; intros Hreg Hnone; rewrite ?Hreg in *; try discriminate.
  all: repeat split; try reflexivity; try (simpl; discriminate).
Qed.

(** ** Best-effort recording *)

(** C4: when a recording step fails (session creation or either append
    throws), the failure is caught and the reply is still the status 200
    success reply, with the answer that was produced, the cached flag and the
    counter (the owner is registered, so the counter is the incoming one and
    [remaining] is unlimited). *)
Theorem recording_failure_is_swallowed (W : Type) (ext : Externals W)
    (req : Request) (w : W) :
  let fin := Chat.run ext req w in
  existsb is_failed_recording (trace fin) = true ->
  reply_code (sent fin) = Some 200 /\
  reply_field "success" (sent fin) = VBool true /\
  option_map fst (produced_answer (trace fin)) =
    Some (reply_field "response" (sent fin)) /\
  option_map (fun p => VBool (snd p)) (produced_answer (trace fin)) =
    Some (reply_field "cached" (sent fin)) /\
  Chat.registered_of req = true /\
  reply_field "qUsed" (sent fin) = VNum (Chat.qUsed_of req) /\
  reply_field "remaining" (sent fin) = str "illimité".
Proof.
  chat_paths; intros Hfail; try discriminate.
  all: repeat split; reflexivity.
Qed.

(** ** The counter *)

(** C2, as the code has it: for a counter cookie that is absent or parses
    to an integer [z] not below the safe range, a success reply (cache hit
    or provider success) reports [z + 1] and [max(0, 2 - (z + 1))] to an
    unauthenticated caller and refreshes the cookie with [z + 1]; to a
    registered caller it reports [z] and [remaining] as unlimited and sets
    no cookie.  Whatever the request, the counter in the reply and in the
    cookie is never below the incoming one: it is absent, [z] or [z + 1].
    Nothing is said of a cookie that does not parse to a number. *)
Theorem counter_advances_on_success (W : Type) (ext : Externals W)
    (req : Request) (w : W) (z : Z) :
  let fin := Chat.run ext req w in
  Chat.qUsed_of req = Num z ->
  MIN_SAFE_INTEGER <= z ->
  (reply_field "success" (sent fin) = VBool true ->
   if Chat.registered_of req
   then reply_field "qUsed" (sent fin) = num z /\
        reply_field "remaining" (sent fin) = str "illimité" /\
        filter is_cookie (headers fin) = []
   else reply_field "qUsed" (sent fin) = num (z + 1) /\
        reply_field "remaining" (sent fin) = num (Z.max 0 (2 - (z + 1))) /\
        filter is_cookie (headers fin) =
          [SetCookie "q_used" (js_toString (Num (z + 1))) 86400]) /\
  (reply_field "qUsed" (sent fin) = VUndefined \/
   reply_field "qUsed" (sent fin) = num z \/
   reply_field "qUsed" (sent fin) = num (z + 1)) /\
  (filter is_cookie (headers fin) = [] \/
   filter is_cookie (headers fin) =
     [SetCookie "q_used" (js_toString (Num (z + 1))) 86400]).
Proof.
  chat_paths; intros Hq Hsafe; rewrite ?Hq in *.
  all: repeat match goal with
         | H : Chat.registered_of _ = _ |- _ => rewrite H
         end.
  all: split; [ intros Hok; try discriminate Hok; repeat split; reflexivity | ].
  all: split; [ first [ left; reflexivity | right; left; reflexivity
                      | right; right; reflexivity ]
              | first [ left; reflexivity | right; reflexivity ] ].
Qed.

(** ** The answer cache *)

(** C6: a request served from the cache leaves the stored answer text as it
    was and returns it; of the whole cache, the request changes the hit
    counter of that entry and nothing else. *)
Theorem cache_hit_only_counts (req : Request) (w : World)
    (q : jsstring) (hit : CachedAnswer) :
  let fin := Chat.run world_externals req w in
  In (EvGetCachedAnswer q (Ok (Some hit))) (trace fin) ->
  exists entry : CachedAnswer,
    w_cache w !! normalize q = Some entry /\
    w_cache (world fin) =
      <[normalize q := {| answer := answer entry; hitCount := hitCount entry + 1 |}]>
        (w_cache w) /\
    answer <$> (w_cache (world fin) !! normalize q) = Some (answer entry) /\
    reply_field "response" (sent fin) = answer entry /\
    reply_field "cached" (sent fin) = VBool true.
Proof.
  chat_world_paths; intros Hin; trace_facts.
  all: eexists; split; [eassumption|].
  all: cbn [w_cache with_cache with_sessions with_clock world].
  all: rewrite lookup_insert_eq.
  all: repeat split; reflexivity.
Qed.

(** C5: two question texts that are equal after trimming and case folding
    share one cache entry: an answer stored under the first is what a lookup
    of the second hits.  In a run of the handler, the text handed to the
    store is the text that was looked up, and after the run a lookup of any
    text with the same normal form hits the stored answer. *)
Theorem same_normal_form_same_entry (req : Request) (w : World)
    (q1 q2 : jsstring) (ans : jsval) :
  let fin := Chat.run world_externals req w in
  to_lower (trim q1) = to_lower (trim q2) ->
  (exists hit : CachedAnswer,
     fst (spec_getCachedAnswer q2 (snd (spec_saveCachedAnswer q1 ans w))) = Ok (Some hit) /\
     answer hit = ans) /\
  (In (EvSaveCachedAnswer q1 ans (Ok tt)) (trace fin) ->
   In (EvGetCachedAnswer q1 (Ok None)) (trace fin) /\
   exists hit : CachedAnswer,
     fst (spec_getCachedAnswer q2 (world fin)) = Ok (Some hit) /\ answer hit = ans).
Proof.
  chat_world_paths; intros Hsame; fold (normalize q1) in Hsame;
    fold (normalize q2) in Hsame;
    (split;
     [ unfold spec_getCachedAnswer, spec_saveCachedAnswer;
       cbn [snd w_cache with_cache]; rewrite <- Hsame, lookup_insert_eq;
       eexists; split; reflexivity
     | intros Hin; trace_facts ]).
  all: split; [simpl; tauto|].
  all: unfold spec_getCachedAnswer;
    cbn [w_cache with_cache with_sessions with_clock];
    rewrite <- Hsame, lookup_insert_eq; eexists; split; reflexivity.
Qed.

(** ** Session titles *)








(** * The properties on the scenarios *)

Ltac in_list := vm_compute; solve [repeat first [left; reflexivity | right]].

(** The third question of an anonymous caller. *)
Lemma quota_exhausted_needs_signup_witness :
  let req := chat_request (anonymous "2") (question "What is X?") in
  let fin := Chat.run world_externals req warm_world in
  (Chat.registered_of req = false /\ Chat.qUsed_of req = Num 2) /\
  reply_code (sent fin) = Some 200 /\
  reply_field "success" (sent fin) = VBool false /\
  reply_field "needSignup" (sent fin) = VBool true /\
  reply_field "qUsed" (sent fin) = num 2 /\
  reply_field "remaining" (sent fin) = num 0 /\
  never is_cache_lookup (trace fin) = true /\
  never is_provider_call (trace fin) = true.
Proof.
  split; [split; vm_compute; reflexivity|].
  apply (quota_exhausted_needs_signup World world_externals
           (chat_request (anonymous "2") (question "What is X?")) warm_world
           2 chatRateLimiter (lit "203.0.113.7") admitted);
    [ vm_compute; reflexivity | vm_compute; reflexivity | lia | in_list | reflexivity ].
Defined.

(** A caller who has used up the free questions: denied by the limiter
    before the counter is looked at, and prompted to sign up only once the
    limiter has admitted the request. *)
Lemma rate_limit_denial_comes_first_witness :
  let req := chat_request (anonymous "2") (question "What is X?") in
  let turned_away := Chat.run world_externals req
                       (fresh_world deny_all (provider_says "X is a letter.")) in
  let prompted := Chat.run world_externals req warm_world in
  (sent turned_away = Some (RateLimited denied) /\
   events_after is_decision (trace turned_away) =
     [EvLog LogSecurity "Rate limit dépassé pour"; EvSendRateLimitError denied] /\
   filter is_cookie (headers turned_away) = [] /\
   never is_costly (trace turned_away) = true) /\
  existsb is_rate_check (trace turned_away) = true /\
  existsb is_admission (trace prompted) = true.
Proof.
  intros req turned_away prompted.
  destruct (rate_limit_denial_comes_first World world_externals req
              (fresh_world deny_all (provider_says "X is a letter.")))
    as (Hdenied & Hasked & _).
  destruct (rate_limit_denial_comes_first World world_externals req warm_world)
    as (_ & _ & Hprompt).
  split; [|split].
  - apply (Hdenied chatRateLimiter (lit "203.0.113.7") denied); [in_list | reflexivity].
  - apply Hasked; [in_list | reflexivity |].
    exists (lit "What is X?"). split; vm_compute; reflexivity.
  - apply Hprompt. vm_compute; reflexivity.
Defined.

(** The provider answers 503. *)
Lemma provider_failure_is_generic_witness :
  let req := chat_request (anonymous "0") (question "What is X?") in
  let fin := Chat.run world_externals req (fresh_world allow_all provider_down) in
  sent fin =
    Some (Json 500
            (VObj [("error",
                    str "Erreur lors de la génération de la réponse. Veuillez réessayer.")])) /\
  reply_field "response" (sent fin) = VUndefined /\
  never is_cache_store (trace fin) = true /\
  never is_recording (trace fin) = true /\
  In (EvGetCachedAnswer (lit "What is X?") (Ok None)) (trace fin).
Proof.
  apply (provider_failure_is_generic World world_externals
           (chat_request (anonymous "0") (question "What is X?"))
           (fresh_world allow_all provider_down)
           (lit "sk-test") (lit "What is X?") unavailable);
    [ in_list | reflexivity ].
Defined.

(** A registered cookie with an unknown e-mail and a counter of 5. *)
Lemma registered_without_owner_witness :
  let req := chat_request (signed_in "nobody@example.org" "5") (question "What is X?") in
  let fin := Chat.run world_externals req warm_world in
  reply_code (sent fin) = Some 200 /\
  reply_field "needSignup" (sent fin) = VUndefined /\
  filter is_cookie (headers fin) = [] /\
  never is_recording (trace fin) = true /\
  reply_field "qUsed" (sent fin) = num 5 /\
  reply_field "remaining" (sent fin) = str "illimité".
Proof.
  destruct (registered_without_owner World world_externals
              (chat_request (signed_in "nobody@example.org" "5") (question "What is X?"))
              warm_world)
    as (Hgate & Hcookie & Hrec & Hcount);
    [ vm_compute; reflexivity | vm_compute; reflexivity | ].
  destruct Hcount as [Hq Hrem]; [vm_compute; reflexivity|].
  repeat split; first [assumption | vm_compute; reflexivity].
Defined.

(** An owner who names a session that does not exist: both appends throw. *)
Lemma recording_failure_is_swallowed_witness :
  let req := chat_request (signed_in "ada@example.org" "0")
               (VObj [("message", str "What is X?"); ("sessionId", num 99)]) in
  let fin := Chat.run world_externals req warm_world in
  existsb is_failed_recording (trace fin) = true /\
  reply_code (sent fin) = Some 200 /\
  reply_field "success" (sent fin) = VBool true /\
  reply_field "response" (sent fin) = str "X is a letter." /\
  reply_field "cached" (sent fin) = VBool true /\
  reply_field "sessionId" (sent fin) = num 99.
Proof.
  destruct (recording_failure_is_swallowed World world_externals
              (chat_request (signed_in "ada@example.org" "0")
                 (VObj [("message", str "What is X?"); ("sessionId", num 99)]))
              warm_world)
    as (Hcode & Hok & Hanswer & Hcached & _);
    [ vm_compute; reflexivity | ].
  repeat split; try assumption; vm_compute; reflexivity.
Defined.

(** The first question of an anonymous caller. *)
Lemma counter_advances_on_success_witness :
  let req := chat_request (anonymous "0") (question "What is X?") in
  let fin := Chat.run world_externals req warm_world in
  Chat.registered_of req = false /\
  reply_field "success" (sent fin) = VBool true /\
  reply_field "qUsed" (sent fin) = num 1 /\
  reply_field "remaining" (sent fin) = num 1 /\
  filter is_cookie (headers fin) = [SetCookie "q_used" (lit "1") 86400].
Proof.
  destruct (counter_advances_on_success World world_externals
              (chat_request (anonymous "0") (question "What is X?")) warm_world 0)
    as (Hsuccess & _ & _);
    [ vm_compute; reflexivity | vm_compute; discriminate | ].
  assert (Hok : reply_field "success"
                  (sent (Chat.run world_externals
                           (chat_request (anonymous "0") (question "What is X?"))
                           warm_world)) = VBool true)
    by (vm_compute; reflexivity).
  specialize (Hsuccess Hok).
  split; [vm_compute; reflexivity|]. split; [exact Hok|].
  exact Hsuccess.
Defined.

(** A question that differs from the cached one in case and white space. *)
Lemma cache_hit_only_counts_witness :
  let req := chat_request (anonymous "0") (question "  What is X? ") in
  let fin := Chat.run world_externals req warm_world in
  exists entry : CachedAnswer,
    w_cache warm_world !! lit "what is x?" = Some entry /\
    w_cache (world fin) =
      <[lit "what is x?" := {| answer := answer entry; hitCount := hitCount entry + 1 |}]>
        (w_cache warm_world) /\
    answer <$> (w_cache (world fin) !! lit "what is x?") = Some (answer entry) /\
    reply_field "response" (sent fin) = answer entry /\
    reply_field "cached" (sent fin) = VBool true.
Proof.
  apply (cache_hit_only_counts
           (chat_request (anonymous "0") (question "  What is X? ")) warm_world
           (lit "  What is X? ")
           {| answer := str "X is a letter."; hitCount := 4 |}).
  in_list.
Defined.

(** Stored under one spelling, found under another. *)
Lemma same_normal_form_same_entry_witness :
  let q1 := lit "  What is X? " in
  let q2 := lit "WHAT IS x?" in
  let req := chat_request (anonymous "0") (VObj [("message", VStr q1)]) in
  let fin := Chat.run world_externals req
               (fresh_world allow_all (provider_says "X is a letter.")) in
  to_lower (trim q1) = to_lower (trim q2) /\
  In (EvSaveCachedAnswer q1 (str "X is a letter.") (Ok tt)) (trace fin) /\
  exists hit : CachedAnswer,
    fst (spec_getCachedAnswer q2 (world fin)) = Ok (Some hit) /\
    answer hit = str "X is a letter.".
Proof.
  assert (Hsame : to_lower (trim (lit "  What is X? ")) = to_lower (trim (lit "WHAT IS x?")))
    by (vm_compute; reflexivity).
  assert (Hstored :
            In (EvSaveCachedAnswer (lit "  What is X? ") (str "X is a letter.") (Ok tt))
               (trace (Chat.run world_externals
                         (chat_request (anonymous "0")
                            (VObj [("message", VStr (lit "  What is X? "))]))
                         (fresh_world allow_all (provider_says "X is a letter.")))))
    by in_list.
  destruct (same_normal_form_same_entry
              (chat_request (anonymous "0") (VObj [("message", VStr (lit "  What is X? "))]))
              (fresh_world allow_all (provider_says "X is a letter."))
              (lit "  What is X? ") (lit "WHAT IS x?") (str "X is a letter.") Hsame)
    as [_ Hrun].
  destruct (Hrun Hstored) as [_ Hhit].
  split; [exact Hsame|]. split; [exact Hstored|]. exact Hhit.
Defined.


(** The rejection of a blank message carries no usage header: the claim C9
    that every response of the answer endpoint carries them, the
    empty-message rejection included, does not hold. *)
Lemma blank_message_reply_has_no_usage_header :
  sent blank_message_run = Some (Json 400 (VObj [("error", str "Message is required")])) /\
  ~ (exists limit remaining reset : Z,
       In (UsageHeaders limit remaining reset) (headers blank_message_run)).
Proof.
  split; [vm_compute; reflexivity|].
  intros (limit & remaining & reset & Hin).
  vm_compute in Hin. destruct Hin as [Hin|[]]. discriminate Hin.
Qed.

(** A counter cookie that does not parse: the request is answered, and
    neither the counter nor what remains in the reply is a number, so the
    claim C2 that a success reply to an unauthenticated caller reports
    [qUsed + 1] and [max(0, 2 - (qUsed + 1))] does not hold of it.  The
    cookie is rewritten to the text [NaN]. *)
Lemma unparsable_counter_is_not_advanced :
  let req := chat_request (anonymous "abc") (question "What is X?") in
  let fin := Chat.run world_externals req warm_world in
  Chat.registered_of req = false /\
  Chat.qUsed_of req = NaN /\
  reply_field "success" (sent fin) = VBool true /\
  ~ (exists z : Z, reply_field "qUsed" (sent fin) = num z) /\
  ~ (exists z : Z, reply_field "remaining" (sent fin) = num z) /\
  filter is_cookie (headers fin) = [SetCookie "q_used" (lit "NaN") 86400].
Proof.
  split; [vm_compute; reflexivity|].
  split; [vm_compute; reflexivity|].
  split; [vm_compute; reflexivity|].
  split; [intros (z & Hz); vm_compute in Hz; discriminate Hz|].
  split; [intros (z & Hz); vm_compute in Hz; discriminate Hz|].
  vm_compute; reflexivity.
Qed.

(** * The embedding on concrete inputs *)

Example lit_decodes_utf8 :
  lit "illimité" = [105; 108; 108; 105; 109; 105; 116; 233]%N.
Proof. vm_compute. reflexivity. Qed.

Example trim_strips_both_ends : trim (lit "  What is X? ") = lit "What is X?".
Proof. vm_compute. reflexivity. Qed.

Example parseInt_reads_a_prefix :
  parseInt (lit "2") = Num 2 /\ parseInt (lit " -12abc") = Num (-12) /\
  parseInt (lit "0x1f") = Num 31 /\ parseInt (lit "abc") = NaN /\
  parseInt (lit "") = NaN /\ js_toString (Num (-40)) = lit "-40".
Proof. repeat split; vm_compute; reflexivity. Qed.

(** The end-to-end scenario of the specification: a first question misses
    the cache and is answered by the provider, the same question in another
    spelling is served from the cache, the third request is stopped. *)
Example three_anonymous_questions :
  let first := Chat.run world_externals
                 (chat_request (anonymous "0") (question "What is X?"))
                 (fresh_world allow_all (provider_says "X is a letter.")) in
  let second := Chat.run world_externals
                  (chat_request (anonymous "1") (question " what is x? "))
                  (world first) in
  let third := Chat.run world_externals
                 (chat_request (anonymous "2") (question "What is X?"))
                 (world second) in
  sent first =
    Some (Json 200 (Chat.success_body (str "X is a letter.") (Num 1) (num 1) false VUndefined)) /\
  sent second =
    Some (Json 200 (Chat.success_body (str "X is a letter.") (Num 2) (num 0) true VUndefined)) /\
  sent third = Some (Json 200 (Chat.needSignup_body (Num 2))) /\
  never is_provider_call (trace second) = true /\
  never is_costly (trace third) = true /\
  hitCount <$> (w_cache (world third) !! lit "what is x?") = Some 1.
Proof. repeat split; vm_compute; reflexivity. Qed.

(** A counter that does not parse is [NaN]: the gate lets the request
    through and the reply carries [NaN] for the counter and for what
    remains. *)
Example unparsable_counter :
  let fin := Chat.run world_externals
               (chat_request (anonymous "abc") (question "What is X?")) warm_world in
  reply_field "success" (sent fin) = VBool true /\
  reply_field "qUsed" (sent fin) = VNum NaN /\
  reply_field "remaining" (sent fin) = VNum NaN.
Proof. repeat split; vm_compute; reflexivity. Qed.

(** * Further properties of the answer endpoint *)

(** Replace a scrutinee by the value a case analysis gave it. *)
Ltac use_cases :=
  repeat match goal with
    | H : ?x = _ |- context [?x] => rewrite H
    end.

(** The method of a run that went past the method test. *)
Lemma is_post (req : Request) :
  negb (req_method req =? "POST")%string = false -> req_method req = "POST".
Proof.
  intros H. apply String.eqb_eq. destruct (req_method req =? "POST")%string;
    [reflexivity | discriminate H].
Qed.

(** The disjunct that is the reply of the path. *)
Ltac same_reply :=
  lazymatch goal with
  | |- ?a = ?b \/ _ => first [constr_eq a b; left; reflexivity | right; same_reply]
  | |- _ \/ _ => right; same_reply
  | |- ?a = ?b => constr_eq a b; reflexivity
  end.

(** ** Validation comes before everything else *)

(** X1: the user table and the rate limiter are consulted only for a POST
    request whose [message] is a string with something else in it than white
    space. *)
Theorem only_a_message_reaches_the_limiter (W : Type) (ext : Externals W)
    (req : Request) (w : W) :
  let fin := Chat.run ext req w in
  existsb is_user_lookup (trace fin) || existsb is_rate_check (trace fin) = true ->
  req_method req = "POST" /\
  exists text : jsstring,
    get_prop (req_body req) "message" = Ok (VStr text) /\
    is_empty (trim text) = false.
Proof.
  chat_paths; intros Hcalled; try discriminate Hcalled.
  all: split; [apply is_post; assumption|].
  all: eexists; split; [reflexivity|].
  all: match goal with
       | H : is_empty _ || is_empty (trim _) = false |- _ =>
           apply orb_false_elim in H as [_ H]; exact H
       end.
Qed.

(** X2: a reply of status 400 or 405 was sent before anything was asked of
    the outside: the trace holds the CORS helpers alone, the response has the
    CORS headers alone, and the world is as the preflight helper left it. *)
Theorem rejected_requests_cost_nothing (W : Type) (ext : Externals W)
    (req : Request) (w : W) :
  let fin := Chat.run ext req w in
  reply_code (sent fin) = Some 400 \/ reply_code (sent fin) = Some 405 ->
  trace fin = [EvSetCorsHeaders; EvHandleCorsPreflight false] /\
  headers fin = [CorsHeaders] /\
  world fin = snd (handleCorsPreflight ext req w).
Proof.
  chat_paths; intros [Hcode|Hcode]; try discriminate Hcode.
  all: use_cases; repeat split; reflexivity.
Qed.

(** X3: the handler always replies, with one of nine replies.  The three
    bodies of status 500 are fixed: whatever a helper throws, its message
    does not reach the caller. *)
Theorem every_reply_has_a_fixed_shape (W : Type) (ext : Externals W)
    (req : Request) (w : W) :
  let fin := Chat.run ext req w in
  sent fin = Some Preflight \/
  sent fin = Some (Json 405 Chat.method_not_allowed_body) \/
  sent fin = Some (Json 400 Chat.message_required_body) \/
  sent fin = Some (Json 500 Chat.internal_error_body) \/
  (exists rl : RateLimit, sent fin = Some (RateLimited rl) /\ rl_success rl = false) \/
  sent fin = Some (Json 200 (Chat.needSignup_body (Chat.qUsed_of req))) \/
  sent fin = Some (Json 500 Chat.configuration_missing_body) \/
  sent fin = Some (Json 500 Chat.provider_error_body) \/
  (exists (answer : jsval) (newQUsed : jsnum) (remaining : jsval) (cached : bool)
          (sessionId : jsval),
     sent fin =
       Some (Json 200 (Chat.success_body answer newQUsed remaining cached sessionId))).
Proof.
  chat_paths.
  all: lazymatch goal with
       | |- Some (RateLimited ?rl) = _ \/ _ =>
           do 4 right; left; exists rl; split; [reflexivity|];
           match goal with
           | H : negb (rl_success _) = true |- _ =>
               apply negb_true_iff in H; exact H
           end
       | |- Some (Json 200 (Chat.success_body _ _ _ _ _)) = _ \/ _ =>
           do 8 right; do 5 eexists; reflexivity
       | |- _ => same_reply
       end.
Qed.

(** ** Admission control *)

(** X4: the limiter is chosen by the [registered] cookie alone and keyed by
    the e-mail cookie only when the caller is registered and the cookie is
    not empty; a registered cookie without an e-mail is counted on the
    registered tier under the network address. *)
Theorem limiter_follows_the_cookies (W : Type) (ext : Externals W)
    (req : Request) (w : W) (l : limiter) (id : jsstring) (r : outcome RateLimit) :
  let fin := Chat.run ext req w in
  let userEmail := Chat.cookie_or (req_cookies req !! "user_email") [] in
  In (EvCheckRateLimit l id r) (trace fin) ->
  l = (if Chat.registered_of req then chatRateLimiterRegistered else chatRateLimiter) /\
  id = (if Chat.registered_of req && negb (is_empty userEmail)
        then userEmail else getClientIp ext req).
Proof.
  chat_paths; intros Hin; trace_facts.
  all: use_cases; split; reflexivity.
Qed.

(** X5: nothing that costs (cache lookup, provider call, cache store,
    recording) happens before the limiter has decided, and when such work is
    done the decision was an admission. *)
Theorem admission_precedes_cost (W : Type) (ext : Externals W)
    (req : Request) (w : W) :
  let fin := Chat.run ext req w in
  never is_costly (events_before is_decision (trace fin)) = true /\
  (existsb is_costly (trace fin) = true -> existsb is_admission (trace fin) = true).
Proof.
  chat_paths; (split; [reflexivity|]); intros Hcost; try discriminate Hcost.
  all: match goal with
       | H : negb (rl_success ?rl) = false |- _ =>
           apply negb_false_iff in H; cbn [existsb is_admission orb]; rewrite H
       end.
  all: reflexivity.
Qed.

(** X6: a run asks each helper at most once: one user lookup, one limiter
    check, one cache lookup, one provider call, one cache store, one session
    creation; and it appends at most two messages. *)
Theorem each_helper_at_most_once (W : Type) (ext : Externals W)
    (req : Request) (w : W) :
  let fin := Chat.run ext req w in
  (count is_user_lookup (trace fin) <= 1 /\
   count is_rate_check (trace fin) <= 1 /\
   count is_cache_lookup (trace fin) <= 1 /\
   count is_provider_call (trace fin) <= 1 /\
   count is_cache_store (trace fin) <= 1 /\
   count is_create (trace fin) <= 1 /\
   count is_append (trace fin) <= 2)%nat.
Proof.
  chat_paths; unfold count; cbn; lia.
Qed.

(** ** Cache and provider *)

(** X7: a cache hit ends the search: the run calls the provider and stores
    nothing.  The provider is called only after a miss for the same message,
    with the configured key. *)
Theorem provider_only_after_a_miss (W : Type) (ext : Externals W)
    (req : Request) (w : W) :
  let fin := Chat.run ext req w in
  (existsb is_cache_hit (trace fin) = true ->
   never is_provider_call (trace fin) = true /\
   never is_cache_store (trace fin) = true) /\
  (forall (key message : jsstring) (r : outcome FetchResponse),
     In (EvFetch key message r) (trace fin) ->
     In (EvGetCachedAnswer message (Ok None)) (trace fin) /\
     OPENAI_API_KEY req = Some key /\ is_empty key = false).
Proof.
  chat_paths; split.
  all: try (intros Hhit; try discriminate Hhit; split; reflexivity).
  all: intros ? ? ? Hin; trace_facts.
  all: split; [simpl; tauto|].
  all: match goal with
       | H : is_empty (Chat.cookie_or (OPENAI_API_KEY ?rq) []) = false |- _ =>
           revert H; unfold Chat.cookie_or;
           destruct (OPENAI_API_KEY rq) as [key1|]; [|discriminate];
           destruct (is_empty key1) eqn:Hk; [discriminate|]; intros _;
           split; [reflexivity | exact Hk]
       end.
Qed.

(** X8: without an API key in the environment no request costs anything,
    none is answered, and an admitted request gets the signup prompt when
    the free questions are used up and the configuration error otherwise. *)
Theorem no_key_no_cost (W : Type) (ext : Externals W)
    (req : Request) (w : W) :
  let fin := Chat.run ext req w in
  Chat.cookie_or (OPENAI_API_KEY req) [] = [] ->
  never is_costly (trace fin) = true /\
  reply_field "success" (sent fin) <> VBool true /\
  (existsb is_admission (trace fin) = true ->
   sent fin = Some (Json 200 (Chat.needSignup_body (Chat.qUsed_of req))) \/
   sent fin = Some (Json 500 Chat.configuration_missing_body)).
Proof.
  chat_paths; intros Hkey;
    try match goal with
        | H : is_empty (Chat.cookie_or _ _) = false |- _ =>
            rewrite Hkey in H; discriminate H
        end.
  all: split; [reflexivity|]; split; [cbn; discriminate|].
  all: intros Hadm; try discriminate Hadm.
  all: try match goal with
       | H : negb (rl_success ?rl) = true |- _ =>
           apply negb_true_iff in H; cbn [existsb is_admission orb] in Hadm;
           rewrite H in Hadm; discriminate Hadm
       end.
  all: same_reply.
Qed.

Lemma js_or_truthy (a b : jsval) : truthy b = true -> truthy (js_or a b) = true.
Proof.
  intros Hb. unfold js_or. destruct (truthy a) eqn:Ha; [exact Ha | exact Hb].
Qed.

Lemma fallback_answer_truthy : truthy Chat.fallback_answer = true.
Proof. vm_compute. reflexivity. Qed.

(** An event of the shape asked for, in a trace that is explicit. *)
Ltac find_event := cbn [In]; solve [repeat first [left; reflexivity | right]].

(** Identify the values that two equations give to one expression. *)
Ltac same_values :=
  repeat match goal with
    | H1 : ?x = Ok _, H2 : ?x = Ok _ |- _ =>
        rewrite H1 in H2; injection H2 as ?; subst
    end.

(** X9: what the handler hands to the cache is never an empty answer: it is
    stored under the message of the request, after the provider replied with
    a success status. *)
Theorem stored_answers_are_not_empty (W : Type) (ext : Externals W)
    (req : Request) (w : W) (q : jsstring) (ans : jsval) (r : outcome unit) :
  let fin := Chat.run ext req w in
  In (EvSaveCachedAnswer q ans r) (trace fin) ->
  truthy ans = true /\
  get_prop (req_body req) "message" = Ok (VStr q) /\
  exists (key : jsstring) (upstream : FetchResponse),
    In (EvFetch key q (Ok upstream)) (trace fin) /\ ok upstream = true.
Proof.
  chat_paths; intros Hin; trace_facts.
  all: split; [apply js_or_truthy, fallback_answer_truthy|].
  all: split; [reflexivity|].
  all: do 2 eexists; split; [find_event|].
  all: match goal with
       | H : negb (ok ?up) = false |- _ => apply negb_false_iff in H; exact H
       end.
Qed.

(** X10: when the provider replies with a success status and no usable
    content (no first choice, no message, an empty or missing content), the
    placeholder sentence is what the handler stores in the cache under the
    question. *)
Theorem placeholder_is_cached (W : Type) (ext : Externals W)
    (req : Request) (w : W) (key q : jsstring) (upstream : FetchResponse)
    (data choices first : jsval) :
  let fin := Chat.run ext req w in
  In (EvFetch key q (Ok upstream)) (trace fin) ->
  ok upstream = true ->
  json upstream = Ok data ->
  get_prop data "choices" = Ok choices ->
  index0 choices = Ok first ->
  truthy (opt_prop (opt_prop first "message") "content") = false ->
  exists r : outcome unit,
    In (EvSaveCachedAnswer q Chat.fallback_answer r) (trace fin) /\
    (r = Ok tt -> reply_field "response" (sent fin) = Chat.fallback_answer).
Proof.
  chat_paths; intros Hin Hok Hjson Hchoices Hfirst Hcontent; trace_facts.
  all: try match goal with
           | H : negb (ok _) = true |- _ => rewrite Hok in H; discriminate H
           end.
  all: try congruence.
  all: same_values; try congruence.
  all: try match goal with
           | H : get_prop ?d "usage" = Throw _, H' : get_prop ?d "choices" = Ok _ |- _ =>
               destruct d; discriminate
           end.
  all: unfold js_or; rewrite Hcontent.
  all: eexists; split; [find_event|].
  all: intros Hr; first [discriminate Hr | reflexivity].
Qed.

(** X11: a success reply returns the answer that the cache or the provider
    produced in the run, and says [cached] exactly when the cache served
    it. *)
Theorem reply_returns_the_produced_answer (W : Type) (ext : Externals W)
    (req : Request) (w : W) :
  let fin := Chat.run ext req w in
  reply_field "success" (sent fin) = VBool true ->
  option_map fst (produced_answer (trace fin)) =
    Some (reply_field "response" (sent fin)) /\
  option_map (fun p => VBool (snd p)) (produced_answer (trace fin)) =
    Some (reply_field "cached" (sent fin)).
Proof.
  chat_paths; intros Hok; try discriminate Hok.
  all: split; reflexivity.
Qed.

(** ** Recording *)

(** X12: every message appended in a run goes to the session whose
    identifier the reply carries.  It is either the user's message, with
    zero tokens, no response time and [wasCached] false, or the answer of
    the reply with the reply's cached flag, appended after the user's
    message went through. *)
Theorem appended_messages_are_the_exchange (W : Type) (ext : Externals W)
    (req : Request) (w : W) (sid role content : jsval) (meta : Metadata)
    (r : outcome unit) :
  let fin := Chat.run ext req w in
  In (EvAddConversationMessage sid role content meta r) (trace fin) ->
  sid = reply_field "sessionId" (sent fin) /\
  exists text : jsstring,
    get_prop (req_body req) "message" = Ok (VStr text) /\
    ((role = str "user" /\ content = VStr text /\ meta = user_metadata) \/
     (role = str "assistant" /\
      content = reply_field "response" (sent fin) /\
      VBool (wasCached meta) = reply_field "cached" (sent fin) /\
      In (EvAddConversationMessage sid (str "user") (VStr text) user_metadata (Ok tt))
         (trace fin))).
Proof.
  chat_paths; intros Hin; trace_facts.
  all: repeat match goal with u : unit |- _ => destruct u end.
  all: split; [reflexivity|]; eexists; split; [reflexivity|].
  all: lazymatch goal with
       | |- (str "user" = _ /\ _) \/ _ => left; repeat split; reflexivity
       | |- _ => right; repeat split; try reflexivity; find_event
       end.
Qed.

(** X13: sessions and messages are written only for a caller whose cookies
    say registered and whose e-mail cookie the user table resolved; a
    session is created for that user, seeded with the message, and only
    when the body carries no session identifier (or a falsy one such as 0 or
    the empty string). *)
Theorem recording_is_for_the_resolved_owner (W : Type) (ext : Externals W)
    (req : Request) (w : W) :
  let fin := Chat.run ext req w in
  let userEmail := Chat.cookie_or (req_cookies req !! "user_email") [] in
  (existsb is_recording (trace fin) = true ->
   Chat.registered_of req = true /\
   exists u : User, In (EvFindUserByEmail userEmail (Ok (Some u))) (trace fin)) /\
  (forall (uid : Z) (seed : jsstring) (r : outcome Z),
     In (EvCreateConversationSession uid seed r) (trace fin) ->
     (exists u : User,
        In (EvFindUserByEmail userEmail (Ok (Some u))) (trace fin) /\ user_id u = uid) /\
     get_prop (req_body req) "message" = Ok (VStr seed) /\
     exists sessionId : jsval,
       get_prop (req_body req) "sessionId" = Ok sessionId /\
       truthy sessionId = false).
Proof.
  chat_paths;
    try match goal with H : false && _ = true |- _ => discriminate H end;
    split.
  all: try (intros Hrec;
            first [discriminate Hrec | split; [reflexivity | eexists; find_event]]).
  all: intros ? ? ? Hin; trace_facts.
  all: split; [eexists; split; [find_event | reflexivity]|].
  all: split; [reflexivity|].
  all: eexists; split; [reflexivity|].
  all: match goal with
       | H : negb (truthy ?v) = true |- truthy ?v = false =>
           apply negb_true_iff in H; exact H
       end.
Qed.

(** X14: the session identifier of a success reply is the identifier of the
    session created in the run, also when an append to that session failed
    afterwards; when no session was created it is the [sessionId] of the
    body as it came: an anonymous caller gets back whatever identifier was
    sent. *)
Theorem reply_session_identifier (W : Type) (ext : Externals W)
    (req : Request) (w : W) :
  let fin := Chat.run ext req w in
  reply_field "success" (sent fin) = VBool true ->
  (forall (uid : Z) (seed : jsstring) (id : Z),
     In (EvCreateConversationSession uid seed (Ok id)) (trace fin) ->
     reply_field "sessionId" (sent fin) = num id) /\
  (never is_created (trace fin) = true ->
   get_prop (req_body req) "sessionId" = Ok (reply_field "sessionId" (sent fin))).
Proof.
  chat_paths; intros Hok; try discriminate Hok.
  all: split;
    [ intros uid seed id Hin; trace_facts; reflexivity
    | intros Hnone; first [discriminate Hnone | reflexivity] ].
Qed.

(** X15: a caller without the registered cookie is never looked up in the
    user table and nothing of the exchange is recorded. *)
Theorem anonymous_callers_leave_no_record (W : Type) (ext : Externals W)
    (req : Request) (w : W) :
  let fin := Chat.run ext req w in
  Chat.registered_of req = false ->
  never is_user_lookup (trace fin) = true /\
  never is_recording (trace fin) = true.
Proof.
  chat_paths; intros Hreg; rewrite ?Hreg in *; try discriminate.
  all: split; reflexivity.
Qed.

(** ** The quota gate and the counter *)

(** X16: the signup prompt is sent only to an admitted caller without the
    registered cookie whose counter is an integer of at least 2: a counter of
    1, a negative one and one without digits all pass the gate. *)
Theorem signup_prompt_only_when_exhausted (W : Type) (ext : Externals W)
    (req : Request) (w : W) :
  let fin := Chat.run ext req w in
  reply_field "needSignup" (sent fin) = VBool true ->
  Chat.registered_of req = false /\
  (exists z : Z, Chat.qUsed_of req = Num z /\ 2 <= z) /\
  existsb is_admission (trace fin) = true.
Proof.
  chat_paths; intros Hgate; try discriminate Hgate.
  all: match goal with
       | H : negb (rl_success ?rl) = false |- _ =>
           apply negb_false_iff in H; cbn [existsb is_admission orb]; rewrite H
       end.
  all: split; [reflexivity|]; split; [|reflexivity].
  all: match goal with
       | H : js_ge ?q (Num 2) = true |- _ =>
           destruct q as [|z]; [discriminate H|];
           exists z; split; [reflexivity | apply Z.leb_le; exact H]
       end.
Qed.

(** X17: the counter cookie is written and the exchange is recorded only in
    runs that end with the success reply: a request that fails or is turned
    away costs an anonymous caller no free question. *)
Theorem only_success_counts (W : Type) (ext : Externals W)
    (req : Request) (w : W) :
  let fin := Chat.run ext req w in
  (filter is_cookie (headers fin) <> [] ->
   reply_field "success" (sent fin) = VBool true /\ Chat.registered_of req = false) /\
  (existsb is_recording (trace fin) = true ->
   reply_field "success" (sent fin) = VBool true).
Proof.
  chat_paths; split.
  all: first [ intros Hcookie; split; reflexivity
             | intros Hcookie; exfalso; apply Hcookie; reflexivity
             | intros Hrec; first [discriminate Hrec | reflexivity] ].
Qed.

(** X18: a user lookup that throws does not fail the request: the error is
    logged and the run goes on to the rate limiter. *)
Theorem failed_lookup_is_not_fatal (W : Type) (ext : Externals W)
    (req : Request) (w : W) (email message : jsstring) :
  let fin := Chat.run ext req w in
  In (EvFindUserByEmail email (Throw message)) (trace fin) ->
  events_after is_user_lookup (trace fin) <> [] /\
  existsb is_rate_check (trace fin) = true /\
  never is_recording (trace fin) = true.
Proof.
  chat_paths; intros Hin; trace_facts.
  all: repeat split; try reflexivity; cbn; discriminate.
Qed.

(** X19: the response time recorded with the answer is the time between the
    two clock readings of the run, and no tokens are recorded for an answer
    served from the cache. *)
Theorem recorded_time_is_between_the_readings (W : Type) (ext : Externals W)
    (req : Request) (w : W) (sid content : jsval) (meta : Metadata)
    (r : outcome unit) :
  let fin := Chat.run ext req w in
  In (EvAddConversationMessage sid (str "assistant") content meta r) (trace fin) ->
  (exists t0 t1 : Z,
     List.filter is_clock (trace fin) = [EvNow t0; EvNow t1] /\
     responseTimeMs meta = num (t1 - t0)) /\
  (wasCached meta = true -> tokensUsed meta = num 0).
Proof.
  chat_paths; intros Hin; trace_facts.
  all: split; [do 2 eexists; split; reflexivity|].
  all: intros Hcached; first [discriminate Hcached | reflexivity].
Qed.

(** * Further properties of the conversations endpoint *)

(** Every path of the conversations handler; the loop over the messages
    and the branches of the other methods stay folded. *)
Ltac conversations_paths := paths unfold_conversations monad_steps.

Lemma get_prop_is_opt_prop (v x : jsval) (k : string) :
  get_prop v k = Ok x -> x = opt_prop v k.
Proof.
  destruct v; cbn; intros H; first [discriminate H | injection H as <-; reflexivity].
Qed.

(** The loop of [saveAnonymous] appends the messages one after the other
    and stops at the first that cannot be read or appended; it writes no
    header and no reply. *)
Lemma save_messages_appends (W : Type) (ext : Externals W) (sid : Z)
    (items : list jsval) :
  forall (st st' : state W) (r : outcome unit),
    Conversations.save_messages ext sid items st = (r, st') ->
    exists (k : nat) (failed : list event),
      trace st' = (trace st ++ anonymous_appends sid (take k items) ++ failed)%list /\
      sent st' = sent st /\ headers st' = headers st /\
      match r with
      | Ok _ => k = length items /\ failed = []
      | Throw m =>
          (k < length items)%nat /\
          (failed = [] \/
           exists role content : jsval,
             failed = [EvAddConversationMessage (num sid) role content
                         anonymous_metadata (Throw m)])
      end.
Proof.
  induction items as [|msg rest IH]; intros st st' r Hrun.
  - injection Hrun as <- <-. exists 0%nat, []. cbn. rewrite app_nil_r. auto.
  - cbn [Conversations.save_messages] in Hrun. revert Hrun.
    unfold bind at 1, lift.
    destruct (get_prop msg "role") as [role|e] eqn:Hrole.
    2:{ intros [= <- <-]. exists 0%nat, []. cbn. rewrite app_nil_r.
        repeat split; auto; lia. }
    unfold bind at 1.
    destruct (get_prop msg "content") as [content|e] eqn:Hcontent.
    2:{ intros [= <- <-]. exists 0%nat, []. cbn. rewrite app_nil_r.
        repeat split; auto; lia. }
    apply get_prop_is_opt_prop in Hrole, Hcontent. subst role content.
    unfold bind at 1, call.
    destruct (addConversationMessage ext (num sid) (opt_prop msg "role")
                (opt_prop msg "content") _ (world st)) as [[[]|e] w'] eqn:Hadd.
    + intros Hrun. apply IH in Hrun as (k & failed & Htrace & Hsent & Hheaders & Hr).
      exists (S k), failed. cbn [trace sent headers] in *.
      rewrite Htrace, <- app_assoc. cbn.
      repeat split; auto.
      destruct r; [destruct Hr as [-> ->]; auto | destruct Hr as [Hk Hf]; split; [lia|exact Hf]].
    + intros [= <- <-]. exists 0%nat. eexists. cbn [trace sent headers take anonymous_appends List.map app].
      repeat split; [cbn; lia|]. right. eauto.
Qed.

Ltac unfold_journal :=
  unfold journal_run, Conversations.run, Conversations.handler, Conversations.post,
    Conversations.on_error, Sessions.other_methods, Sessions.dispatch,
    Sessions.get, Sessions.delete, Sessions.put, send, log.

Ltac journal_steps :=
  cbn [handleCorsPreflight findUserByEmail getClientIp checkRateLimit
       getCachedAnswer saveCachedAnswer fetch createConversationSession
       addConversationMessage now beside_journal
       getUserConversationStats getSessionMessages getUserConversationSessions
       deleteConversationSession updateSessionTitle journaled];
  unfold aside, noted, Sessions.invoke;
  monad_steps.

(** Every path of the conversations handler with all its branches; the loop
    over the messages stays folded. *)
Ltac journal_paths :=
  paths unfold_journal journal_steps;
  unfold journal, thrown; cbn [world trace headers sent fst snd List.map app].

(** The loop of [saveAnonymous] does not call the session store. *)
Lemma save_messages_beside_journal (W J : Type) (ext : Externals W) (sid : Z)
    (items : list jsval) :
  forall (st st' : state (W * J)) (r : outcome unit),
    Conversations.save_messages (beside_journal ext) sid items st = (r, st') ->
    snd (world st') = snd (world st).
Proof.
  induction items as [|msg rest IH]; intros st st' r Hrun.
  - injection Hrun as <- <-. reflexivity.
  - cbn [Conversations.save_messages] in Hrun. revert Hrun.
    unfold bind at 1, lift. destruct (get_prop msg "role"); [|intros [= <- <-]; reflexivity].
    unfold bind at 1. destruct (get_prop msg "content"); [|intros [= <- <-]; reflexivity].
    unfold bind at 1, call. cbn [addConversationMessage beside_journal]. unfold aside.
    destruct (addConversationMessage ext _ _ _ _ _) as [[[]|e] w'].
    + intros Hrun. apply IH in Hrun. exact Hrun.
    + intros [= <- <-]. reflexivity.
Qed.

(** What the loop lemmas say of a folded loop in the context. *)
Ltac loop_facts :=
  match goal with
  | Hrun : Conversations.save_messages _ _ _ _ = _ |- _ =>
      let k := fresh "k" in
      let failed := fresh "failed" in
      let Htrace := fresh "Htrace" in
      let Hsent := fresh "Hsent" in
      let Hheaders := fresh "Hheaders" in
      let Hr := fresh "Hr" in
      let Hjournal := fresh "Hjournal" in
      pose proof (save_messages_beside_journal _ _ _ _ _ _ _ _ Hrun) as Hjournal;
      apply save_messages_appends in Hrun
        as (k & failed & Htrace & Hsent & Hheaders & Hr);
      cbn [world trace headers sent fst snd] in Hjournal, Htrace, Hsent, Hheaders
  end.

(** ** Who gets in *)

(** X20: a request without the registered cookie or without an e-mail cookie
    is answered 401 whatever its method, before the user table is read. *)
Theorem authentication_comes_first (W : Type) (ext : Externals W)
    (db : SessionStore W) (ToNumber : jsval -> jsnum)
    (query : gmap string jsstring) (req : Request) (w : W) :
  let fin := journal_run ext db ToNumber query req w in
  In (EvHandleCorsPreflight false) (trace fin) ->
  req_cookies req !! "registered" <> Some (lit "1") \/
  Chat.cookie_or (req_cookies req !! "user_email") [] = [] ->
  sent fin = Some (Json 401 Conversations.authentication_required_body) /\
  trace fin = [EvSetCorsHeaders; EvHandleCorsPreflight false] /\
  journal fin = [].
Proof.
  journal_paths; intros Hpre Hauth.
  all: try (exfalso;
            match goal with
            | H : negb (bool_decide (?c = _)) || is_empty ?l = false |- _ =>
                apply orb_false_elim in H as [Hreg Hmail];
                apply negb_false_iff, bool_decide_eq_true in Hreg;
                destruct Hauth as [Hauth|Hauth];
                [ exact (Hauth Hreg)
                | unfold Chat.cookie_or in Hauth; rewrite Hmail in Hauth;
                  subst; discriminate Hmail ]
            end).
  all: lazymatch goal with
       | H : In _ [EvSetCorsHeaders; EvHandleCorsPreflight true] |- _ =>
           cbn in H; destruct H as [H|[H|[]]]; discriminate H
       | |- _ => repeat split; reflexivity
       end.
Qed.

(** The events that the loop of [saveAnonymous] adds are appends. *)
Lemma save_messages_only_appends (W : Type) (ext : Externals W) (sid : Z)
    (items : list jsval) (st st' : state W) (r : outcome unit) (ev : event) :
  Conversations.save_messages ext sid items st = (r, st') ->
  In ev (trace st') -> In ev (trace st) \/ is_append ev = true.
Proof.
  intros Hrun Hin.
  apply save_messages_appends in Hrun as (k & failed & Htrace & _ & _ & Hr).
  rewrite Htrace in Hin. apply in_app_or in Hin as [Hin|Hin]; [left; exact Hin|].
  right. apply in_app_or in Hin as [Hin|Hin].
  - apply in_map_iff in Hin as (msg & <- & _). reflexivity.
  - destruct r as [|m]; [destruct Hr as [_ ->]; destruct Hin|].
    destruct Hr as [_ [->|(role & content & ->)]]; [destruct Hin|].
    destruct Hin as [<-|[]]. reflexivity.
Qed.

(** Membership in the trace of a path whose loop is folded, for an event
    that is no append. *)
Ltac before_the_loop H :=
  repeat match type of H with
    | In _ (_ ++ _) => apply in_app_or in H as [H|H]
    end;
  try match type of H with
    | In _ (trace _) =>
        match goal with
        | Hrun : Conversations.save_messages _ _ _ _ = _ |- _ =>
            apply (save_messages_only_appends _ _ _ _ _ _ _ _ Hrun) in H
              as [H|H]; [cbn [trace] in H | discriminate H]
        end
    end.

(** X21: when the e-mail cookie names no user the reply is 404, and that is
    all: the lookup is the last thing the run does, nothing is read from or
    written to the session store, nothing is recorded. *)
Theorem unknown_user_gets_404 (W : Type) (ext : Externals W)
    (db : SessionStore W) (ToNumber : jsval -> jsnum)
    (query : gmap string jsstring) (req : Request) (w : W) (email : jsstring) :
  let fin := journal_run ext db ToNumber query req w in
  In (EvFindUserByEmail email (Ok None)) (trace fin) ->
  sent fin = Some (Json 404 Conversations.user_not_found_body) /\
  events_after is_user_lookup (trace fin) = [] /\
  journal fin = [] /\
  never is_recording (trace fin) = true.
Proof.
  journal_paths; intros Hin; before_the_loop Hin; trace_facts.
  repeat split; reflexivity.
Qed.

(** X22: a reply of status 400, 401 or 405 means that nothing happened: no
    call to the session store, no session created, no message appended. *)
Theorem rejected_requests_change_nothing (W : Type) (ext : Externals W)
    (db : SessionStore W) (ToNumber : jsval -> jsnum)
    (query : gmap string jsstring) (req : Request) (w : W) :
  let fin := journal_run ext db ToNumber query req w in
  reply_code (sent fin) = Some 400 \/ reply_code (sent fin) = Some 401 \/
  reply_code (sent fin) = Some 405 ->
  journal fin = [] /\ never is_recording (trace fin) = true.
Proof.
  journal_paths; intros [Hcode|[Hcode|Hcode]]; cbn in Hcode;
    try discriminate Hcode.
  all: split; reflexivity.
Qed.

(** X23: [saveAnonymous] creates no session for a body without messages:
    missing, not an array or an empty array are answered 400 "Messages
    requis", and a POST with another action 400 "Action non reconnue". *)
Theorem anonymous_messages_are_required (W : Type) (ext : Externals W)
    (db : SessionStore W) (ToNumber : jsval -> jsnum)
    (query : gmap string jsstring) (req : Request) (w : W)
    (email : jsstring) (u : User) (action messages : jsval) :
  let fin := journal_run ext db ToNumber query req w in
  req_method req = "POST" ->
  In (EvFindUserByEmail email (Ok (Some u))) (trace fin) ->
  get_prop (req_body req) "action" = Ok action ->
  get_prop (req_body req) "messages" = Ok messages ->
  Conversations.is_string "saveAnonymous" action && is_message_list messages = false ->
  sent fin =
    Some (Json 400 (if Conversations.is_string "saveAnonymous" action
                    then Conversations.messages_required_body
                    else Conversations.unknown_action_body)) /\
  never is_recording (trace fin) = true.
Proof.
  journal_paths; intros Hpost Hin Haction Hmessages Hbad.
  all: try match goal with
           | H : (req_method _ =? "POST")%string = false |- _ =>
               rewrite Hpost in H; discriminate H
           end.
  all: try discriminate Haction; try discriminate Hmessages.
  all: same_values.
  all: try (injection Haction as ?; subst).
  all: try (injection Hmessages as ?; subst).
  all: try match goal with
           | H : Conversations.is_string _ _ = _ |- _ => rewrite H in *
           end.
  all: try discriminate Hbad.
  all: try (before_the_loop Hin; trace_facts; fail).
  all: split; reflexivity.
Qed.

(** ** What [saveAnonymous] writes *)

Lemma appends_are_appended (sid : Z) (items : list jsval) :
  List.filter is_appended (anonymous_appends sid items) = anonymous_appends sid items.
Proof.
  induction items as [|msg rest IH]; [reflexivity|].
  cbn. f_equal. exact IH.
Qed.

Lemma appends_throw_nothing (sid : Z) (items : list jsval) :
  omap thrown_in_trace (anonymous_appends sid items) = [].
Proof.
  induction items as [|msg rest IH]; [reflexivity|exact IH].
Qed.

(** X24: once the session is created, the messages of the body are appended
    to it in their order, each with its own role and content and the fixed
    metadata, up to the first that fails; the reply is the 200 with the new
    session identifier exactly when all of them went through.  The session
    created stays when the loop stops early. *)
Theorem anonymous_messages_are_appended_in_order (W : Type) (ext : Externals W)
    (db : SessionStore W) (ToNumber : jsval -> jsnum)
    (query : gmap string jsstring) (req : Request) (w : W)
    (uid sid : Z) (title : jsstring) :
  let fin := journal_run ext db ToNumber query req w in
  In (EvCreateConversationSession uid title (Ok sid)) (trace fin) ->
  exists (items : list jsval) (k : nat),
    get_prop (req_body req) "messages" = Ok (VArr items) /\
    (k <= length items)%nat /\
    List.filter is_appended (trace fin) = anonymous_appends sid (take k items) /\
    (sent fin = Some (Json 200 (Conversations.saved_body sid)) <-> k = length items).
Proof.
  journal_paths; intros Hin.
  all: try (trace_facts; fail).
  all: match goal with
       | Hrun : Conversations.save_messages _ _ ?items _ = (?r, _) |- _ =>
           pose proof (fun ev => save_messages_only_appends _ _ _ _ _ _ _ ev Hrun) as Hsplit;
           apply save_messages_appends in Hrun
             as (k & failed & Htrace & _ & _ & Hr);
           cbn [trace] in Htrace, Hsplit;
           exists items, k
       end.
  all: apply in_app_or in Hin as [Hin|Hin]; [|trace_facts].
  all: apply Hsplit in Hin as [Hin|Hin]; [|discriminate Hin].
  all: trace_facts.
  all: rewrite Htrace, !List.filter_app, appends_are_appended.
  all: split; [reflexivity|].
  all: destruct Hr as [Hk Hfailed].
  - subst k failed. cbn. rewrite !app_nil_r. split; [lia|]. split; [reflexivity|]. split; reflexivity.
  - split; [lia|]. split; [|split; [intros H; discriminate H|lia]].
    destruct Hfailed as [->|(role & content & ->)]; cbn; rewrite !app_nil_r; reflexivity.
  - split; [lia|]. split; [|split; [intros H; discriminate H|lia]].
    destruct Hfailed as [->|(role & content & ->)]; cbn; rewrite !app_nil_r; reflexivity.
Qed.

Lemma session_title_is_short (found : option jsval) (t : jsstring) :
  Conversations.session_title found = Ok t -> (length t <= 53)%nat.
Proof.
  unfold Conversations.session_title, substring0.
  destruct found as [m|]; [|intros [= <-]; vm_compute; lia].
  destruct (get_prop m "content") as [[| | | |content| |]|]; try discriminate.
  intros [= <-]. rewrite length_app, length_take.
  destruct (50 <? Z.of_nat (length content));
    [change (length (lit "...")) with 3%nat | cbn [length]]; lia.
Qed.

Lemma appends_create_nothing (sid : Z) (items : list jsval) :
  List.filter is_create (anonymous_appends sid items) = [].
Proof.
  induction items as [|msg rest IH]; [reflexivity|exact IH].
Qed.

(** X25: a session is created only by a POST, once, for the account that the
    e-mail cookie names, and with a title of at most 53 code units. *)
Theorem sessions_are_created_by_post (W : Type) (ext : Externals W)
    (db : SessionStore W) (ToNumber : jsval -> jsnum)
    (query : gmap string jsstring) (req : Request) (w : W)
    (uid : Z) (title : jsstring) (r : outcome Z) :
  let fin := journal_run ext db ToNumber query req w in
  In (EvCreateConversationSession uid title r) (trace fin) ->
  req_method req = "POST" /\
  (length title <= 53)%nat /\
  (exists (email : jsstring) (u : User),
     req_cookies req !! "user_email" = Some email /\
     In (EvFindUserByEmail email (Ok (Some u))) (trace fin) /\
     uid = user_id u) /\
  count is_create (trace fin) = 1%nat.
Proof.
  journal_paths; intros Hin.
  all: try (trace_facts; fail).
  all: match goal with
       | H : (req_method _ =? "POST")%string = true |- _ =>
           apply String.eqb_eq in H
       end.
  all: try match goal with
       | Hrun : Conversations.save_messages _ _ _ _ = _ |- _ =>
           pose proof (fun ev => save_messages_only_appends _ _ _ _ _ _ _ ev Hrun) as Hsplit;
           apply save_messages_appends in Hrun
             as (k & failed & Htrace & _ & _ & Hr);
           cbn [trace] in Htrace, Hsplit;
           apply in_app_or in Hin as [Hin|Hin]; [|trace_facts];
           apply Hsplit in Hin as [Hin|Hin]; [|discriminate Hin]
       end.
  all: trace_facts.
  all: split; [assumption|].
  all: split; [eapply session_title_is_short; eassumption|].
  all: split;
    [ eexists _, _; split; [reflexivity|]; split; [|reflexivity];
      first [ rewrite Htrace; apply in_or_app; left; apply in_or_app; left; find_event
            | find_event ]
    | ].
  all: unfold count.
  all: try reflexivity.
  all: rewrite Htrace, !List.filter_app, appends_create_nothing.
  all: destruct Hr as [_ Hfailed].
  - subst failed. reflexivity.
  - destruct Hfailed as [->|(role & content & ->)]; reflexivity.
  - destruct Hfailed as [->|(role & content & ->)]; reflexivity.
Qed.

(** ** Errors *)

(** X26: a message thrown by a helper or by the session store ends the run:
    nothing else is thrown, and the reply is the 404 with that message for
    the two messages of the store about a session, the fixed 500 for every
    other message. *)
Theorem thrown_messages_are_mapped (W : Type) (ext : Externals W)
    (db : SessionStore W) (ToNumber : jsval -> jsnum)
    (query : gmap string jsstring) (req : Request) (w : W) (m : jsstring) :
  let fin := journal_run ext db ToNumber query req w in
  In m (thrown fin) ->
  thrown fin = [m] /\
  (m = lit "Session non trouvée" \/ m = lit "Accès non autorisé à cette session" ->
   sent fin = Some (Json 404 (VObj [("error", VStr m)]))) /\
  (m <> lit "Session non trouvée" ->
   m <> lit "Accès non autorisé à cette session" ->
   sent fin = Some (Json 500 (VObj [("error", str "Erreur interne du serveur")]))).
Proof.
  journal_paths.
  all: try match goal with
       | Hrun : Conversations.save_messages _ _ _ _ = _ |- _ =>
           loop_facts; rewrite Hjournal, Htrace, !omap_app, appends_throw_nothing;
           destruct Hr as [Hk Hfailed];
           first [ subst failed
                 | destruct Hfailed as [->|(role & content & ->)] ]
       end.
  all: cbn [omap thrown_in_trace failure_of app snd option_bind mbind from_option].
  all: intros Hin.
  all: cbn in Hin.
  all: try (destruct Hin; fail).
  all: destruct Hin as [<-|[]].
  all: match goal with
       | H : bool_decide _ || bool_decide _ = true |- _ =>
           split; [reflexivity|]; split; [reflexivity|];
           intros Hone Htwo; exfalso;
           apply orb_true_iff in H as [H|H];
           [ apply bool_decide_eq_true in H; exact (Hone H)
           | apply bool_decide_eq_true in H; exact (Htwo H) ]
       | H : bool_decide _ || bool_decide _ = false |- _ =>
           split; [reflexivity|]; split; [|reflexivity];
           apply orb_false_elim in H as [Hone Htwo];
           apply bool_decide_eq_false in Hone, Htwo;
           intros [Heq|Heq]; exfalso; [exact (Hone Heq) | exact (Htwo Heq)]
       end.
Qed.

(** ** Listing, deleting and renaming *)

(** A method that is not the one of the branch. *)
Ltac other_method Hmethod :=
  match goal with
  | H : (req_method _ =? _)%string = _ |- _ =>
      rewrite Hmethod in H; discriminate H
  end.

(** X27: a PUT with a session identifier and a title that is a string
    renames the session when the title has at most 255 code units; a longer
    title is answered 400 and the store is not called. *)
Theorem long_titles_are_refused (W : Type) (ext : Externals W)
    (db : SessionStore W) (ToNumber : jsval -> jsnum)
    (query : gmap string jsstring) (req : Request) (w : W)
    (email : jsstring) (u : User) (sid : jsval) (t : jsstring) :
  let fin := journal_run ext db ToNumber query req w in
  req_method req = "PUT" ->
  In (EvFindUserByEmail email (Ok (Some u))) (trace fin) ->
  get_prop (req_body req) "sessionId" = Ok sid ->
  get_prop (req_body req) "title" = Ok (VStr t) ->
  truthy sid = true ->
  t <> [] ->
  (255 < Z.of_nat (length t) ->
   sent fin = Some (Json 400 Sessions.title_too_long_body) /\ journal fin = []) /\
  (Z.of_nat (length t) <= 255 ->
   journal fin = [UpdateSessionTitle (parseInt_value sid) (user_id u) (VStr t)]).
Proof.
  journal_paths; intros Hput Hin Hsid Htitle Htruthy Hfilled.
  all: try other_method Hput.
  all: try discriminate Hsid; try discriminate Htitle.
  all: trace_facts.
  all: injection Hsid as ?; injection Htitle as ?; subst.
  all: try match goal with
           | H : negb (truthy ?v) || negb (truthy (VStr ?s)) = true |- _ =>
               exfalso; rewrite Htruthy in H; destruct s;
               [exact (Hfilled eq_refl) | discriminate H]
           end.
  all: match goal with
       | H : Sessions.exceeds _ _ _ = _ |- _ =>
           cbn in H; first [apply Z.ltb_lt in H | apply Z.ltb_ge in H]
       end.
  all: split; intros Hlength; first [lia | split; reflexivity | reflexivity].
Qed.

(** X28: the sessions of a user are listed only by a GET that asks neither
    for the statistics nor for a session, and never with a limit of zero or
    [NaN]: the limit is the number at the head of the [limit] parameter, and
    20 when there is none or when it is zero. *)
Theorem listing_has_a_limit (W : Type) (ext : Externals W)
    (db : SessionStore W) (ToNumber : jsval -> jsnum)
    (query : gmap string jsstring) (req : Request) (w : W)
    (uid : Z) (limit : jsval) :
  let fin := journal_run ext db ToNumber query req w in
  In (GetUserConversationSessions uid limit) (journal fin) ->
  req_method req = "GET" /\
  query !! "action" <> Some (lit "stats") /\
  Chat.cookie_or (query !! "sessionId") [] = [] /\
  match parseInt_query (query !! "limit") with
  | Num z => limit = num (if z =? 0 then 20 else z)
  | NaN => limit = num 20
  end.
Proof.
  journal_paths.
  all: try match goal with
           | Hrun : Conversations.save_messages _ _ _ _ = _ |- _ =>
               loop_facts; rewrite Hjournal
           end.
  all: cbn [List.map fst app]; intros Hin.
  all: try (destruct Hin; fail).
  all: destruct Hin as [Hin|[]]; try discriminate Hin.
  all: injection Hin as ? ?; subst.
  all: match goal with
       | H : (req_method _ =? "GET")%string = true |- _ => apply String.eqb_eq in H
       end.
  all: match goal with
       | H : bool_decide _ = false |- _ => apply bool_decide_eq_false in H
       end.
  all: match goal with
       | H : negb (is_empty ?s) = false |- _ =>
           apply negb_false_iff in H; destruct s; [|discriminate H]
       end.
  all: split; [assumption|]; split; [assumption|]; split; [reflexivity|].
  all: unfold Sessions.list_limit, js_or, num.
  all: destruct (parseInt_query (query !! "limit")) as [|z]; [reflexivity|].
  all: cbn [truthy]; destruct (z =? 0) eqn:Hz; [apply Z.eqb_eq in Hz; subst z|]; cbn;
    rewrite ?Hz; reflexivity.
Qed.

(** X29: the store is called at most once in a run, for the account that
    the e-mail cookie names, and each method has its own calls: a GET only
    reads, a session is deleted only by a DELETE and renamed only by a
    PUT. *)
Theorem store_calls_follow_the_method (W : Type) (ext : Externals W)
    (db : SessionStore W) (ToNumber : jsval -> jsnum)
    (query : gmap string jsstring) (req : Request) (w : W) (c : db_call) :
  let fin := journal_run ext db ToNumber query req w in
  In c (journal fin) ->
  journal fin = [c] /\
  (exists (email : jsstring) (u : User),
     req_cookies req !! "user_email" = Some email /\
     In (EvFindUserByEmail email (Ok (Some u))) (trace fin) /\
     call_user c = user_id u) /\
  req_method req =
    match c with
    | GetUserConversationStats _ | GetSessionMessages _ _
    | GetUserConversationSessions _ _ => "GET"
    | DeleteConversationSession _ _ => "DELETE"
    | UpdateSessionTitle _ _ _ => "PUT"
    end.
Proof.
  journal_paths.
  all: try match goal with
           | Hrun : Conversations.save_messages _ _ _ _ = _ |- _ =>
               loop_facts; rewrite Hjournal
           end.
  all: cbn [List.map fst app]; intros Hin.
  all: try (destruct Hin; fail).
  all: destruct Hin as [<-|[]].
  all: split; [reflexivity|].
  all: split; [eexists _, _; split; [reflexivity|]; split; [find_event|reflexivity]|].
  all: cbn [call_user].
  all: match goal with
       | H : (req_method _ =? ?m)%string = true |- _ = ?m => apply String.eqb_eq in H; exact H
       end.
Qed.

(** X30: on a GET, a DELETE and a PUT the first handler of
    src/api/conversations.js and the handler of src/unnamed/part_000 run
    alike: same calls, same trace, same headers, same reply. *)
Theorem legacy_handler_agrees (W : Type) (ext : Externals W)
    (db : SessionStore W) (ToNumber : jsval -> jsnum)
    (query : gmap string jsstring) (req : Request) (w : W) :
  req_method req = "GET" \/ req_method req = "DELETE" \/ req_method req = "PUT" ->
  Legacy.run ext db ToNumber query req w =
  Conversations.run ext (Sessions.other_methods db ToNumber query) req w.
Proof.
  intros Hmethod.
  unfold Legacy.run, Legacy.handler, Conversations.run, Conversations.handler,
    Sessions.other_methods, Sessions.dispatch.
  destruct Hmethod as [-> | [-> | ->]]; reflexivity.
Qed.

(** * The further properties on the scenarios *)

(** The first question of an anonymous caller. *)
Lemma only_a_message_reaches_the_limiter_witness :
  let ext := world_externals in
  let req := chat_request (anonymous "0") (question "What is X?") in
  let w := warm_world in
  let fin := Chat.run ext req w in
  req_method req = "POST" /\
  exists text : jsstring,
    get_prop (req_body req) "message" = Ok (VStr text) /\
    is_empty (trim text) = false.
Proof.
  intros ext req w fin.
  apply (only_a_message_reaches_the_limiter World ext req w).
  vm_compute; reflexivity.
Defined.

(** A message of white space only. *)
Lemma rejected_requests_cost_nothing_witness :
  let ext := world_externals in
  let req := chat_request (anonymous "0") (question "   ") in
  let w := fresh_world allow_all (provider_says "X is a letter.") in
  let fin := Chat.run ext req w in
  trace fin = [EvSetCorsHeaders; EvHandleCorsPreflight false] /\
  headers fin = [CorsHeaders] /\
  world fin = snd (handleCorsPreflight ext req w).
Proof.
  intros ext req w fin.
  apply (rejected_requests_cost_nothing World ext req w).
  left; vm_compute; reflexivity.
Defined.

(** An anonymous caller is counted by address. *)
Lemma limiter_follows_the_cookies_witness :
  let ext := world_externals in
  let req := chat_request (anonymous "0") (question "What is X?") in
  let w := warm_world in
  let l := chatRateLimiter in
  let id := lit "203.0.113.7" in
  let userEmail := Chat.cookie_or (req_cookies req !! "user_email") [] in
  l = (if Chat.registered_of req then chatRateLimiterRegistered else chatRateLimiter) /\
  id = (if Chat.registered_of req && negb (is_empty userEmail)
        then userEmail else getClientIp ext req).
Proof.
  intros ext req w l id.
  apply (limiter_follows_the_cookies World ext req w l id (Ok admitted)).
  in_list.
Defined.

(** A question that goes to the provider was admitted. *)
Lemma admission_precedes_cost_witness :
  let ext := world_externals in
  let req := chat_request (anonymous "0") (question "What is X?") in
  let w := fresh_world allow_all (provider_says "X is a letter.") in
  let fin := Chat.run ext req w in
  never is_costly (events_before is_decision (trace fin)) = true /\
  existsb is_admission (trace fin) = true.
Proof.
  intros ext req w fin.
  destruct (admission_precedes_cost World ext req w) as [Hbefore Hcost].
  split; [exact Hbefore|]. apply Hcost. vm_compute; reflexivity.
Defined.

(** A hit stops at the cache; a miss goes to the provider with the key. *)
Lemma provider_only_after_a_miss_witness :
  let ext := world_externals in
  let req := chat_request (anonymous "0") (question "What is X?") in
  let hit := Chat.run ext req warm_world in
  let miss := Chat.run ext req (fresh_world allow_all (provider_says "X is a letter.")) in
  (never is_provider_call (trace hit) = true /\
   never is_cache_store (trace hit) = true) /\
  In (EvGetCachedAnswer (lit "What is X?") (Ok None)) (trace miss) /\
  OPENAI_API_KEY req = Some (lit "sk-test") /\
  is_empty (lit "sk-test") = false.
Proof.
  intros ext req hit miss.
  destruct (provider_only_after_a_miss World ext req warm_world) as [Hhit _].
  destruct (provider_only_after_a_miss World ext req
              (fresh_world allow_all (provider_says "X is a letter."))) as [_ Hmiss].
  split; [apply Hhit; vm_compute; reflexivity|].
  apply (Hmiss (lit "sk-test") (lit "What is X?")
           (provider_says "X is a letter." (lit "What is X?"))).
  in_list.
Defined.

(** A deployment without a key, on a question that the cache holds. *)
Lemma no_key_no_cost_witness :
  let ext := world_externals in
  let req := without_key (chat_request (anonymous "0") (question "What is X?")) in
  let w := warm_world in
  let fin := Chat.run ext req w in
  never is_costly (trace fin) = true /\
  reply_field "success" (sent fin) <> VBool true /\
  (existsb is_admission (trace fin) = true ->
   sent fin = Some (Json 200 (Chat.needSignup_body (Chat.qUsed_of req))) \/
   sent fin = Some (Json 500 Chat.configuration_missing_body)).
Proof.
  intros ext req w fin.
  apply (no_key_no_cost World ext req w).
  vm_compute; reflexivity.
Defined.

(** The answer of the provider is stored under the question as typed. *)
Lemma stored_answers_are_not_empty_witness :
  let ext := world_externals in
  let req := chat_request (anonymous "0") (question "What is X?") in
  let w := fresh_world allow_all (provider_says "X is a letter.") in
  let fin := Chat.run ext req w in
  let q := lit "What is X?" in
  let ans := str "X is a letter." in
  truthy ans = true /\
  get_prop (req_body req) "message" = Ok (VStr q) /\
  exists (key : jsstring) (upstream : FetchResponse),
    In (EvFetch key q (Ok upstream)) (trace fin) /\ ok upstream = true.
Proof.
  intros ext req w fin q ans.
  apply (stored_answers_are_not_empty World ext req w q ans (Ok tt)).
  in_list.
Defined.

(** The provider answers with an empty content. *)
Lemma placeholder_is_cached_witness :
  let ext := world_externals in
  let req := chat_request (anonymous "0") (question "What is X?") in
  let w := fresh_world allow_all (fun _ => Ok empty_completion) in
  let fin := Chat.run ext req w in
  exists r : outcome unit,
    In (EvSaveCachedAnswer (lit "What is X?") Chat.fallback_answer r) (trace fin) /\
    (r = Ok tt -> reply_field "response" (sent fin) = Chat.fallback_answer).
Proof.
  intros ext req w fin.
  apply (placeholder_is_cached World ext req w (lit "sk-test") (lit "What is X?")
           empty_completion
           (VObj [("choices", VArr [VObj [("message", VObj [("content", str "")])]]);
                  ("usage", VObj [("total_tokens", num 42)])])
           (VArr [VObj [("message", VObj [("content", str "")])]])
           (VObj [("message", VObj [("content", str "")])]));
    [ in_list | reflexivity | reflexivity | reflexivity | reflexivity
    | vm_compute; reflexivity ].
Defined.

(** A question that the cache holds. *)
Lemma reply_returns_the_produced_answer_witness :
  let ext := world_externals in
  let req := chat_request (anonymous "0") (question "What is X?") in
  let w := warm_world in
  let fin := Chat.run ext req w in
  option_map fst (produced_answer (trace fin)) =
    Some (reply_field "response" (sent fin)) /\
  option_map (fun p => VBool (snd p)) (produced_answer (trace fin)) =
    Some (reply_field "cached" (sent fin)).
Proof.
  intros ext req w fin.
  apply (reply_returns_the_produced_answer World ext req w).
  vm_compute; reflexivity.
Defined.

(** The first question of a signed-in user: the user message. *)
Lemma appended_messages_are_the_exchange_witness :
  let ext := world_externals in
  let req := chat_request (signed_in "ada@example.org" "0") (question "What is X?") in
  let w := warm_world in
  let fin := Chat.run ext req w in
  let sid := num 1 in
  let role := str "user" in
  let content := str "What is X?" in
  let meta := user_metadata in
  sid = reply_field "sessionId" (sent fin) /\
  exists text : jsstring,
    get_prop (req_body req) "message" = Ok (VStr text) /\
    ((role = str "user" /\ content = VStr text /\ meta = user_metadata) \/
     (role = str "assistant" /\
      content = reply_field "response" (sent fin) /\
      VBool (wasCached meta) = reply_field "cached" (sent fin) /\
      In (EvAddConversationMessage sid (str "user") (VStr text) user_metadata (Ok tt))
         (trace fin))).
Proof.
  intros ext req w fin sid role content meta.
  apply (appended_messages_are_the_exchange World ext req w sid role content meta (Ok tt)).
  in_list.
Defined.

(** The first question of a signed-in user is recorded for that user. *)
Lemma recording_is_for_the_resolved_owner_witness :
  let ext := world_externals in
  let req := chat_request (signed_in "ada@example.org" "0") (question "What is X?") in
  let w := warm_world in
  let fin := Chat.run ext req w in
  let userEmail := Chat.cookie_or (req_cookies req !! "user_email") [] in
  (Chat.registered_of req = true /\
   exists u : User, In (EvFindUserByEmail userEmail (Ok (Some u))) (trace fin)) /\
  (exists u : User,
     In (EvFindUserByEmail userEmail (Ok (Some u))) (trace fin) /\ user_id u = 7) /\
  get_prop (req_body req) "message" = Ok (VStr (lit "What is X?")) /\
  exists sessionId : jsval,
    get_prop (req_body req) "sessionId" = Ok sessionId /\
    truthy sessionId = false.
Proof.
  intros ext req w fin userEmail.
  destruct (recording_is_for_the_resolved_owner World ext req w) as [Hany Hcreate].
  split; [apply Hany; vm_compute; reflexivity|].
  apply (Hcreate 7 (lit "What is X?") (Ok 1)).
  in_list.
Defined.

(** The first question of a signed-in user opens session 1; an anonymous
    caller gets back the identifier that was sent. *)
Lemma reply_session_identifier_witness :
  let ext := world_externals in
  let opened :=
    Chat.run ext (chat_request (signed_in "ada@example.org" "0") (question "What is X?"))
      warm_world in
  let req := chat_request (anonymous "0")
               (VObj [("message", str "What is X?"); ("sessionId", num 99)]) in
  let echoed := Chat.run ext req warm_world in
  reply_field "sessionId" (sent opened) = num 1 /\
  get_prop (req_body req) "sessionId" = Ok (reply_field "sessionId" (sent echoed)).
Proof.
  intros ext opened req echoed.
  destruct (reply_session_identifier World ext
              (chat_request (signed_in "ada@example.org" "0") (question "What is X?"))
              warm_world)
    as [Hcreated _]; [vm_compute; reflexivity|].
  destruct (reply_session_identifier World ext req warm_world)
    as [_ Hnone]; [vm_compute; reflexivity|].
  split.
  - apply (Hcreated 7 (lit "What is X?") 1). in_list.
  - apply Hnone. vm_compute; reflexivity.
Defined.

(** A caller without the registered cookie. *)
Lemma anonymous_callers_leave_no_record_witness :
  let ext := world_externals in
  let req := chat_request (anonymous "0") (question "What is X?") in
  let w := warm_world in
  let fin := Chat.run ext req w in
  never is_user_lookup (trace fin) = true /\
  never is_recording (trace fin) = true.
Proof.
  intros ext req w fin.
  apply (anonymous_callers_leave_no_record World ext req w).
  vm_compute; reflexivity.
Defined.

(** The third question of an anonymous caller. *)
Lemma signup_prompt_only_when_exhausted_witness :
  let ext := world_externals in
  let req := chat_request (anonymous "2") (question "What is X?") in
  let w := warm_world in
  let fin := Chat.run ext req w in
  Chat.registered_of req = false /\
  (exists z : Z, Chat.qUsed_of req = Num z /\ 2 <= z) /\
  existsb is_admission (trace fin) = true.
Proof.
  intros ext req w fin.
  apply (signup_prompt_only_when_exhausted World ext req w).
  vm_compute; reflexivity.
Defined.

(** The counter cookie of an anonymous caller, the record of a signed-in
    user. *)
Lemma only_success_counts_witness :
  let ext := world_externals in
  let counted := Chat.run ext (chat_request (anonymous "0") (question "What is X?"))
                   warm_world in
  let recorded :=
    Chat.run ext (chat_request (signed_in "ada@example.org" "0") (question "What is X?"))
      warm_world in
  reply_field "success" (sent counted) = VBool true /\
  reply_field "success" (sent recorded) = VBool true.
Proof.
  intros ext counted recorded.
  destruct (only_success_counts World ext
              (chat_request (anonymous "0") (question "What is X?")) warm_world)
    as [Hcookie _].
  destruct (only_success_counts World ext
              (chat_request (signed_in "ada@example.org" "0") (question "What is X?"))
              warm_world)
    as [_ Hrecord].
  split.
  - apply Hcookie. vm_compute. discriminate.
  - apply Hrecord. vm_compute; reflexivity.
Defined.

(** The user table cannot be reached. *)
Lemma failed_lookup_is_not_fatal_witness :
  let ext := lookup_down in
  let req := chat_request (signed_in "ada@example.org" "0") (question "What is X?") in
  let w := warm_world in
  let fin := Chat.run ext req w in
  events_after is_user_lookup (trace fin) <> [] /\
  existsb is_rate_check (trace fin) = true /\
  never is_recording (trace fin) = true.
Proof.
  intros ext req w fin.
  apply (failed_lookup_is_not_fatal World ext req w
           (lit "ada@example.org") (lit "connection refused")).
  in_list.
Defined.

(** The answer of the provider, recorded a tick after the question came. *)
Lemma recorded_time_is_between_the_readings_witness :
  let ext := world_externals in
  let req := chat_request (signed_in "ada@example.org" "0") (question "What is X?") in
  let w := fresh_world allow_all (provider_says "X is a letter.") in
  let fin := Chat.run ext req w in
  let meta := {| tokensUsed := num 42; responseTimeMs := num 1; wasCached := false |} in
  (exists t0 t1 : Z,
     List.filter is_clock (trace fin) = [EvNow t0; EvNow t1] /\
     responseTimeMs meta = num (t1 - t0)) /\
  (wasCached meta = true -> tokensUsed meta = num 0).
Proof.
  intros ext req w fin meta.
  apply (recorded_time_is_between_the_readings World ext req w
           (num 1) (str "X is a letter.") meta (Ok tt)).
  in_list.
Defined.

(** A listing without cookies. *)
Lemma authentication_comes_first_witness :
  let ext := world_externals in
  let req := request_with "GET" (anonymous "0") VUndefined in
  let w := fresh_world allow_all (provider_says "X is a letter.") in
  let fin := journal_run ext quiet_store no_number ∅ req w in
  sent fin = Some (Json 401 Conversations.authentication_required_body) /\
  trace fin = [EvSetCorsHeaders; EvHandleCorsPreflight false] /\
  journal fin = [].
Proof.
  intros ext req w fin.
  apply (authentication_comes_first World ext quiet_store no_number ∅ req w);
    [ in_list | right; vm_compute; reflexivity ].
Defined.

(** Cookies that name an account that does not exist. *)
Lemma unknown_user_gets_404_witness :
  let ext := world_externals in
  let req := request_with "GET" (signed_in "nobody@example.org" "0") VUndefined in
  let w := fresh_world allow_all (provider_says "X is a letter.") in
  let fin := journal_run ext quiet_store no_number ∅ req w in
  sent fin = Some (Json 404 Conversations.user_not_found_body) /\
  events_after is_user_lookup (trace fin) = [] /\
  journal fin = [] /\
  never is_recording (trace fin) = true.
Proof.
  intros ext req w fin.
  apply (unknown_user_gets_404 World ext quiet_store no_number ∅ req w
           (lit "nobody@example.org")).
  in_list.
Defined.

(** A DELETE that names no session. *)
Lemma rejected_requests_change_nothing_witness :
  let ext := world_externals in
  let req := request_with "DELETE" (signed_in "ada@example.org" "0") VUndefined in
  let w := fresh_world allow_all (provider_says "X is a letter.") in
  let fin := journal_run ext quiet_store no_number ∅ req w in
  journal fin = [] /\ never is_recording (trace fin) = true.
Proof.
  intros ext req w fin.
  apply (rejected_requests_change_nothing World ext quiet_store no_number ∅ req w).
  left; vm_compute; reflexivity.
Defined.

(** [saveAnonymous] with an empty array. *)
Lemma anonymous_messages_are_required_witness :
  let ext := world_externals in
  let req := request_with "POST" (signed_in "ada@example.org" "0") (anonymous_messages []) in
  let w := fresh_world allow_all (provider_says "X is a letter.") in
  let fin := journal_run ext quiet_store no_number ∅ req w in
  let action := str "saveAnonymous" in
  sent fin =
    Some (Json 400 (if Conversations.is_string "saveAnonymous" action
                    then Conversations.messages_required_body
                    else Conversations.unknown_action_body)) /\
  never is_recording (trace fin) = true.
Proof.
  intros ext req w fin action.
  apply (anonymous_messages_are_required World ext quiet_store no_number ∅ req w
           (lit "ada@example.org") {| user_id := 7 |} action (VArr []));
    [ reflexivity | in_list | reflexivity | reflexivity | vm_compute; reflexivity ].
Defined.

(** Two messages saved after signing up. *)
Lemma anonymous_messages_are_appended_in_order_witness :
  let ext := world_externals in
  let req := request_with "POST" (signed_in "ada@example.org" "0") two_messages in
  let w := fresh_world allow_all (provider_says "X is a letter.") in
  let fin := journal_run ext quiet_store no_number ∅ req w in
  exists (items : list jsval) (k : nat),
    get_prop (req_body req) "messages" = Ok (VArr items) /\
    (k <= length items)%nat /\
    List.filter is_appended (trace fin) = anonymous_appends 1 (take k items) /\
    (sent fin = Some (Json 200 (Conversations.saved_body 1)) <-> k = length items).
Proof.
  intros ext req w fin.
  apply (anonymous_messages_are_appended_in_order World ext quiet_store no_number ∅ req w
           7 1 (lit "Quels sont les frais ?")).
  in_list.
Defined.

(** The session of the two messages. *)
Lemma sessions_are_created_by_post_witness :
  let ext := world_externals in
  let req := request_with "POST" (signed_in "ada@example.org" "0") two_messages in
  let w := fresh_world allow_all (provider_says "X is a letter.") in
  let fin := journal_run ext quiet_store no_number ∅ req w in
  let title := lit "Quels sont les frais ?" in
  req_method req = "POST" /\
  (length title <= 53)%nat /\
  (exists (email : jsstring) (u : User),
     req_cookies req !! "user_email" = Some email /\
     In (EvFindUserByEmail email (Ok (Some u))) (trace fin) /\
     7 = user_id u) /\
  count is_create (trace fin) = 1%nat.
Proof.
  intros ext req w fin title.
  apply (sessions_are_created_by_post World ext quiet_store no_number ∅ req w
           7 title (Ok 1)).
  in_list.
Defined.

(** A DELETE of a session that the store does not know. *)
Lemma thrown_messages_are_mapped_witness :
  let ext := world_externals in
  let req := request_with "DELETE" (signed_in "ada@example.org" "0") VUndefined in
  let w := fresh_world allow_all (provider_says "X is a letter.") in
  let fin := journal_run ext strict_store no_number {[ "sessionId" := lit "99" ]} req w in
  let m := lit "Session non trouvée" in
  thrown fin = [m] /\
  (m = lit "Session non trouvée" \/ m = lit "Accès non autorisé à cette session" ->
   sent fin = Some (Json 404 (VObj [("error", VStr m)]))) /\
  (m <> lit "Session non trouvée" ->
   m <> lit "Accès non autorisé à cette session" ->
   sent fin = Some (Json 500 (VObj [("error", str "Erreur interne du serveur")]))).
Proof.
  intros ext req w fin m.
  apply (thrown_messages_are_mapped World ext strict_store no_number
           {[ "sessionId" := lit "99" ]} req w m).
  in_list.
Defined.

(** A PUT that renames session 1. *)
Lemma long_titles_are_refused_witness :
  let ext := world_externals in
  let req := request_with "PUT" (signed_in "ada@example.org" "0")
               (VObj [("sessionId", num 1); ("title", str "Divorce")]) in
  let w := fresh_world allow_all (provider_says "X is a letter.") in
  let fin := journal_run ext quiet_store no_number ∅ req w in
  let t := lit "Divorce" in
  (255 < Z.of_nat (length t) ->
   sent fin = Some (Json 400 Sessions.title_too_long_body) /\ journal fin = []) /\
  (Z.of_nat (length t) <= 255 ->
   journal fin = [UpdateSessionTitle (parseInt_value (num 1)) 7 (VStr t)]).
Proof.
  intros ext req w fin t.
  apply (long_titles_are_refused World ext quiet_store no_number ∅ req w
           (lit "ada@example.org") {| user_id := 7 |} (num 1) t);
    [ reflexivity | in_list | reflexivity | reflexivity | reflexivity
    | vm_compute; discriminate ].
Defined.

(** A listing of five sessions. *)
Lemma listing_has_a_limit_witness :
  let ext := world_externals in
  let req := request_with "GET" (signed_in "ada@example.org" "0") VUndefined in
  let w := fresh_world allow_all (provider_says "X is a letter.") in
  let query : gmap string jsstring := {[ "limit" := lit "5" ]} in
  let fin := journal_run ext quiet_store no_number query req w in
  let limit := num 5 in
  req_method req = "GET" /\
  query !! "action" <> Some (lit "stats") /\
  Chat.cookie_or (query !! "sessionId") [] = [] /\
  match parseInt_query (query !! "limit") with
  | Num z => limit = num (if z =? 0 then 20 else z)
  | NaN => limit = num 20
  end.
Proof.
  intros ext req w query fin limit.
  apply (listing_has_a_limit World ext quiet_store no_number query req w 7 limit).
  in_list.
Defined.

(** The listing is the only call of its run. *)
Lemma store_calls_follow_the_method_witness :
  let ext := world_externals in
  let req := request_with "GET" (signed_in "ada@example.org" "0") VUndefined in
  let w := fresh_world allow_all (provider_says "X is a letter.") in
  let query : gmap string jsstring := {[ "limit" := lit "5" ]} in
  let fin := journal_run ext quiet_store no_number query req w in
  let c := GetUserConversationSessions 7 (num 5) in
  journal fin = [c] /\
  (exists (email : jsstring) (u : User),
     req_cookies req !! "user_email" = Some email /\
     In (EvFindUserByEmail email (Ok (Some u))) (trace fin) /\
     call_user c = user_id u) /\
  req_method req = "GET".
Proof.
  intros ext req w query fin c.
  apply (store_calls_follow_the_method World ext quiet_store no_number query req w c).
  in_list.
Defined.

(** A listing on both handlers. *)
Lemma legacy_handler_agrees_witness :
  let ext := world_externals in
  let req := request_with "GET" (signed_in "ada@example.org" "0") VUndefined in
  let w := fresh_world allow_all (provider_says "X is a letter.") in
  Legacy.run ext quiet_store no_number ∅ req w =
  Conversations.run ext (Sessions.other_methods quiet_store no_number ∅) req w.
Proof.
  intros ext req w.
  apply (legacy_handler_agrees World ext quiet_store no_number ∅ req w).
  left; reflexivity.
Defined.
